(** * Part 3 - Model Building: the notebook as a program over Spark

    The notebook [Part_3_Model_Building.ipynb] is a straight-line script:
    every cell calls into PySpark.  The script is embedded as a program in a
    small state-and-error monad; what Spark computes (scalar SQL functions,
    fitting, scoring, splitting) is an interface the program is written
    against, so that every statement proved below holds whatever the library
    returns. *)

From Stdlib Require Import ZArith QArith String Ascii List Bool Lia.
From stdpp Require Import base option list strings gmap.
Import ListNotations.

Local Open Scope string_scope.
Local Open Scope list_scope.

(** ** Python literals *)

(** A float literal of the source is kept as the exact rational its decimal
    text denotes; no double arithmetic is performed on it by the script. *)
Inductive pyvalue :=
| PyInt (z : Z)
| PyFloat (q : Q)
| PyStr (s : string).

#[global] Instance Q_eq_dec : EqDecision Q.
Proof. intros [a b] [c d]. unfold Decision. decide equality; [apply Pos.eq_dec | apply Z.eq_dec]. Defined.

#[global] Instance pyvalue_eq_dec : EqDecision pyvalue.
Proof.
  intros x y. unfold Decision.
  decide equality; [apply Z.eq_dec | apply Q_eq_dec | apply String.string_dec].
Defined.

(** ** Column names

    The session is created without [spark.sql.caseSensitive], so Spark's
    analyzer resolves column names up to letter case. *)
Definition lower_ascii (a : ascii) : ascii :=
  let n := N_of_ascii a in
  if ((65 <=? n)%N && (n <=? 90)%N)%bool then ascii_of_N (n + 32) else a.

Fixpoint lowercase (s : string) : string :=
  match s with
  | EmptyString => EmptyString
  | String a s' => String (lower_ascii a) (lowercase s')
  end.

Definition resolver (a b : string) : bool := String.eqb (lowercase a) (lowercase b).

Definition hasColumn (schema : list string) (name : string) : bool :=
  existsb (fun f => resolver f name) schema.

Fixpoint fieldIndex (schema : list string) (name : string) : option nat :=
  match schema with
  | [] => None
  | f :: fs => if resolver f name then Some 0%nat else S <$> fieldIndex fs name
  end.

(** ** Column expressions: [pyspark.sql.functions] and [Column] methods *)
Inductive Column :=
| attribute (i : nat)                       (* an output attribute of the frame, by position *)
| col (name : string)
| lit (v : pyvalue)
| length (c : Column)
| concat (a b : Column)
| equal (a b : Column)                      (* [Column.__eq__] *)
| CaseWhen (cond val : Column)               (* [when(cond, val)]: null when [cond] fails *)
| CaseWhenElse (cond val els : Column)       (* [when(cond, val).otherwise(els)] *)
| Cast (c : Column) (ty : string).

Definition when (cond val : Column) : Column := CaseWhen cond val.

Definition otherwise (w e : Column) : Column :=
  match w with
  | CaseWhen c v => CaseWhenElse c v e
  | _ => w
  end.

Definition cast (ty : string) (c : Column) : Column := Cast c ty.

(** Names an expression refers to; the analyzer rejects the plan when one of
    them is not a column of the frame.  This is the one analysis error the
    embedding keeps: Spark also rejects a name that two columns carry and an
    expression whose operand types do not fit, and the frames here carry
    neither types nor that check.  So what fails below fails in Spark, and
    what Spark accepts is accepted below with the same result; a frame
    accepted below may still be rejected by Spark. *)
Fixpoint references (c : Column) : list string :=
  match c with
  | attribute _ => []
  | col n => [n]
  | lit _ => []
  | length a => references a
  | concat a b => references a ++ references b
  | equal a b => references a ++ references b
  | CaseWhen c v => references c ++ references v
  | CaseWhenElse c v e => references c ++ references v ++ references e
  | Cast a _ => references a
  end.

Definition resolved (schema : list string) (c : Column) : bool :=
  forallb (hasColumn schema) (references c).

(** The name a column carries after [withColumn colName]. *)
Definition renamed (colName f : string) : string :=
  if resolver f colName then colName else f.

(** The schema [withColumn] produces. *)
Definition withColumn_schema (schema : list string) (colName : string) : list string :=
  map (renamed colName) schema ++ (if hasColumn schema colName then [] else [colName]).

(** No positional reference occurs in the expression. *)
Fixpoint attribute_free (c : Column) : bool :=
  match c with
  | attribute _ => false
  | col _ | lit _ => true
  | length a | Cast a _ => attribute_free a
  | concat a b | equal a b | CaseWhen a b => attribute_free a && attribute_free b
  | CaseWhenElse a b e => attribute_free a && attribute_free b && attribute_free e
  end.

(** ** Scalar SQL semantics, supplied by Spark *)
Class SqlValues := {
  value : Type;
  sql_null : value;
  sql_lit : pyvalue -> value;
  sql_length : value -> value;
  sql_concat : value -> value -> value;
  sql_equal : value -> value -> value;
  sql_cast : string -> value -> value;
  sql_is_true : value -> bool;
  sql_is_null : value -> bool
}.

Section DataFrames.
Context {V : SqlValues}.

Definition Row := list value.

Record DataFrame := mkDataFrame { columns : list string; rows : list Row }.

(** A cell of a row, by position; a row shorter than its schema reads as null. *)
Definition cell (r : Row) (i : nat) : value := nth i r sql_null.

Definition getField (schema : list string) (r : Row) (name : string) : value :=
  match fieldIndex schema name with
  | Some i => cell r i
  | None => sql_null
  end.

Fixpoint eval (schema : list string) (r : Row) (c : Column) : value :=
  match c with
  | attribute i => cell r i
  | col n => getField schema r n
  | lit v => sql_lit v
  | length a => sql_length (eval schema r a)
  | concat a b => sql_concat (eval schema r a) (eval schema r b)
  | equal a b => sql_equal (eval schema r a) (eval schema r b)
  | CaseWhen c v =>
      if sql_is_true (eval schema r c) then eval schema r v else sql_null
  | CaseWhenElse c v e =>
      if sql_is_true (eval schema r c) then eval schema r v else eval schema r e
  | Cast a ty => sql_cast ty (eval schema r a)
  end.

(** [df.select(named expressions)]: [None] is the analyzer's exception for
    a name that is no column of the frame. *)
Definition project (df : DataFrame) (es : list (string * Column)) : option DataFrame :=
  if forallb (fun e => resolved (columns df) e.2) es
  then Some {| columns := map fst es;
               rows := map (fun r => map (fun e => eval (columns df) r e.2) es) (rows df) |}
  else None.

(** [Dataset.withColumn]: every column whose name resolves to [colName] is
    replaced in place by the new expression, under the new name; when none
    does, the new column is appended. *)
Fixpoint replacedAndExisting (i : nat) (schema : list string) (colName : string) (c : Column)
  : list (string * Column) :=
  match schema with
  | [] => []
  | f :: fs =>
      (if resolver f colName then (colName, c) else (f, attribute i))
        :: replacedAndExisting (S i) fs colName c
  end.

Definition newColumns (schema : list string) (colName : string) (c : Column)
  : list (string * Column) :=
  if hasColumn schema colName then [] else [(colName, c)].

Definition withColumn (df : DataFrame) (colName : string) (c : Column) : option DataFrame :=
  project df (replacedAndExisting 0 (columns df) colName c ++ newColumns (columns df) colName c).

(** [df.select(names)] *)
Definition select (df : DataFrame) (names : list string) : option DataFrame :=
  project df (map (fun n => (n, col n)) names).

(** [df.na.drop()]: rows holding a null in any column are removed. *)
Definition na_drop (df : DataFrame) : DataFrame :=
  {| columns := columns df;
     rows := List.filter (fun r => forallb (fun v => negb (sql_is_null v)) r) (rows df) |}.

(** Columns of [df'] that no column of [df] resolves to. *)
Definition new_columns (df df' : DataFrame) : list string :=
  List.filter (fun n => negb (hasColumn (columns df) n)) (columns df').

(** *** Cell "Basic Feature Engineering" *)
Definition feature_engineering (flight_df : DataFrame) : option DataFrame :=
  flight_df ← withColumn flight_df "CRS_DEP_HOUR"
    (otherwise
       (when (equal (length (col "CRS_DEP_TIME")) (lit (PyInt 4))) (col "CRS_DEP_TIME"))
       (concat (lit (PyStr "0")) (col "CRS_DEP_TIME")));
  withColumn flight_df "CRS_DEP_HOUR" (cast "double" (col "CRS_DEP_TIME")).

End DataFrames.


(** ** Configuration objects of [pyspark.ml] *)

Inductive Stage :=
| StringIndexer (inputCol outputCol handleInvalid : string)
| OneHotEncoderEstimator (inputCols outputCols : list string)
| VectorAssembler (inputCols : list string) (outputCol : string).

(** [StringIndexer] and [OneHotEncoderEstimator] are estimators;
    [VectorAssembler] is a plain transformer. *)
Definition isEstimator (s : Stage) : bool :=
  match s with
  | VectorAssembler _ _ => false
  | _ => true
  end.

Inductive Estimator :=
| LogisticRegression (featuresCol labelCol : string) (maxIter : Z)
| RandomForestClassifier (labelCol featuresCol : string) (maxBins : Z)
| GBTClassifier (maxIter : Z) (featuresCol labelCol : string) (maxBins : Z).

Record BinaryClassificationEvaluator := mkEvaluator {
  getLabelCol : string;
  getMetricName : string
}.

(** A [Param] is identified by the uid of the object owning it and its name. *)
Record Param := mkParam { parent : string; name : string }.

#[global] Instance Param_eq_dec : EqDecision Param.
Proof. intros x y. unfold Decision. decide equality; apply String.string_dec. Defined.

Definition ParamMap := list (Param * pyvalue).

Record CrossValidator := mkCrossValidator {
  getEstimator : Estimator;
  getEstimatorParamMaps : list ParamMap;
  getEvaluator : BinaryClassificationEvaluator;
  getNumFolds : Z;
  getParallelism : Z
}.

(** ** [ParamGridBuilder]

    The builder keeps a Python dict from [Param] to its candidate values;
    [build] is [itertools.product] over the dict's values, each tuple zipped
    with the keys into a dict. *)
Fixpoint dict_set {K W : Type} `{EqDecision K} (d : list (K * W)) (k : K) (v : W) : list (K * W) :=
  match d with
  | [] => [(k, v)]
  | (k', v') :: d' => if decide (k = k') then (k', v) :: d' else (k', v') :: dict_set d' k v
  end.

Definition dict {K W : Type} `{EqDecision K} (items : list (K * W)) : list (K * W) :=
  fold_left (fun d kv => dict_set d kv.1 kv.2) items [].

Fixpoint product {A : Type} (ls : list (list A)) : list (list A) :=
  match ls with
  | [] => [[]]
  | l :: rest => flat_map (fun x => map (cons x) (product rest)) l
  end.

Definition ParamGridBuilder : list (Param * list pyvalue) := [].

Definition addGrid (b : list (Param * list pyvalue)) (param : Param) (values : list pyvalue)
  : list (Param * list pyvalue) :=
  dict_set b param values.

Definition build (b : list (Param * list pyvalue)) : list ParamMap :=
  let keys := map fst b in
  let grid_values := map snd b in
  map (fun prod => dict (combine keys prod)) (product grid_values).

(** ** What Spark ML computes

    Fitting, transforming, scoring and splitting are the library's; a call
    that raises returns [None].  [randomSplit] takes the seed it finally
    runs with. *)
Class SparkML {V : SqlValues} := {
  sample : Q -> Z -> DataFrame -> DataFrame;
  randomSplit : list Q -> Z -> DataFrame -> list DataFrame;
  StageModel : Type;
  stage_fit : Stage -> DataFrame -> option StageModel;
  stage_transform : Stage -> DataFrame -> option DataFrame;
  stage_model_transform : StageModel -> DataFrame -> option DataFrame;
  Model : Type;
  uid : Model -> string;
  fit : Estimator -> DataFrame -> option Model;
  transform : Model -> DataFrame -> option DataFrame;
  evaluate : BinaryClassificationEvaluator -> DataFrame -> option Q;
  cv_fit : CrossValidator -> DataFrame -> option Model;
  explainParams : Model -> string;
  bestModel_get : Model -> string -> option string;
  summary_roc : Model -> option DataFrame
}.

Section Program.
Context {V : SqlValues} {L : SparkML}.

(** *** [Pipeline.fit] and [PipelineModel.transform] *)

Inductive Transformer :=
| Fitted (m : StageModel)
| Plain (s : Stage).

Definition transformer_transform (t : Transformer) (dataset : DataFrame) : option DataFrame :=
  match t with
  | Fitted m => stage_model_transform m dataset
  | Plain s => stage_transform s dataset
  end.

Fixpoint indexOfLastEstimator_from (i : Z) (stages : list Stage) (acc : Z) : Z :=
  match stages with
  | [] => acc
  | stage :: rest =>
      indexOfLastEstimator_from (i + 1) rest (if isEstimator stage then i else acc)
  end.

Definition indexOfLastEstimator (stages : list Stage) : Z :=
  indexOfLastEstimator_from 0 stages (-1).

Fixpoint fit_stages (i last : Z) (stages : list Stage) (dataset : DataFrame)
  : option (list Transformer) :=
  match stages with
  | [] => Some []
  | stage :: rest =>
      if (i <=? last)%Z then
        if isEstimator stage then
          model ← stage_fit stage dataset;
          dataset ← (if (i <? last)%Z then stage_model_transform model dataset
                     else Some dataset);
          transformers ← fit_stages (i + 1) last rest dataset;
          Some (Fitted model :: transformers)
        else
          dataset ← stage_transform stage dataset;
          transformers ← fit_stages (i + 1) last rest dataset;
          Some (Plain stage :: transformers)
      else
        transformers ← fit_stages (i + 1) last rest dataset;
        Some (Plain stage :: transformers)
  end.

Definition Pipeline_fit (stages : list Stage) (dataset : DataFrame) : option (list Transformer) :=
  fit_stages 0 (indexOfLastEstimator stages) stages dataset.

Fixpoint PipelineModel_transform (stages : list Transformer) (dataset : DataFrame)
  : option DataFrame :=
  match stages with
  | [] => Some dataset
  | t :: rest => dataset ← transformer_transform t dataset; PipelineModel_transform rest dataset
  end.

(** *** The world the script runs in *)

Record Env := mkEnv {
  getenv : string -> option string;          (* [os.getenv] *)
  spark_sql : string -> option DataFrame;    (* the catalog behind [spark.sql] *)
  random_randint : nat -> Z                  (* successive draws of Python's [random] *)
}.

Inductive event :=
| Ev_getOrCreate (appName : string) (conf : list (string * option string))
| Ev_sql (query : string)
| Ev_persist (df : DataFrame)
| Ev_HTML (engine_id domain : option string)   (* the Spark UI link, displayed *)
| Ev_printSchema (schema : list string)
| Ev_Pipeline (stages : list Stage)
| Ev_Pipeline_fit (stages : list Stage) (df : DataFrame)
| Ev_PipelineModel_transform (pm : list Transformer) (df : DataFrame)
| Ev_select (names : list string)
| Ev_randomSplit (weights : list Q) (seed : option Z) (effective : Z) (df : DataFrame)
| Ev_fit (e : Estimator) (df : DataFrame)
| Ev_transform (m : Model) (df : DataFrame)
| Ev_evaluate (ev : BinaryClassificationEvaluator) (df : DataFrame)
| Ev_CrossValidator (cv : CrossValidator)
| Ev_cv_fit (cv : CrossValidator) (df : DataFrame)
| Ev_print (s : string)
| Ev_plot (roc : DataFrame)
| Ev_save (path : string).

(** The object store holds what [MLWriter.save] wrote, by path. *)
Record World := mkWorld {
  trace : list event;
  draws : nat;
  store : gmap string (list Transformer)
}.

Definition M (A : Type) : Type := World -> option A * World.

Definition ret {A : Type} (a : A) : M A := fun w => (Some a, w).

Definition bind {A B : Type} (m : M A) (f : A -> M B) : M B :=
  fun w => match m w with
           | (Some a, w') => f a w'
           | (None, w') => (None, w')
           end.

Definition raise {A : Type} : M A := fun w => (None, w).

Definition log (e : event) (w : World) : World :=
  {| trace := trace w ++ [e]; draws := draws w; store := store w |}.

Definition draw (w : World) : World :=
  {| trace := trace w; draws := S (draws w); store := store w |}.

Definition emit (e : event) : M unit := fun w => (Some tt, log e w).

(** A result, or the exception that ends the run. *)
Definition lift {A : Type} (r : option A) : M A :=
  match r with
  | Some a => ret a
  | None => raise
  end.

(** A library call: logged, then its result or its exception. *)
Definition call {A : Type} (e : event) (r : option A) : M A :=
  bind (emit e) (fun _ => lift r).

Definition randint (env : Env) : M Z :=
  fun w => (Some (random_randint env (draws w)), draw w).

(** [pipelineModel.write().overwrite().save(path)] *)
Definition save (pm : list Transformer) (path : string) : M unit :=
  fun w => (Some tt, {| trace := trace w ++ [Ev_save path]; draws := draws w;
                        store := <[path := pm]> (store w) |}).

(** *** Two ways to speak about a program

    [wp m Q w]: if [m] completes from [w], its result and final world
    satisfy [Q]. *)
Definition wp {A : Type} (m : M A) (Q : A -> World -> Prop) (w : World) : Prop :=
  forall a w', m w = (Some a, w') -> Q a w'.

(** [m] leaves the object store alone and logs only events satisfying [P]. *)
Definition emits (P : event -> Prop) {A : Type} (m : M A) : Prop :=
  forall w, store (m w).2 = store w
            /\ exists evs, trace (m w).2 = trace w ++ evs /\ List.Forall P evs.

End Program.

#[global] Instance M_ret {V : SqlValues} {L : SparkML} : MRet M := @ret V L.
#[global] Instance M_bind {V : SqlValues} {L : SparkML} : MBind M :=
  fun A B f m => bind m f.

(** ** The notebook *)

Section Notebook.
Context {V : SqlValues} {L : SparkML}.
Variable env : Env.

(** [DataFrame.randomSplit(weights, seed=None)]: without a seed, one is drawn
    from Python's [random] module. *)
Definition DataFrame_randomSplit (df : DataFrame) (weights : list Q) (seed : option Z)
  : M (list DataFrame) :=
  s ← (match seed with Some s => ret s | None => randint env end);
  call (Ev_randomSplit weights seed s df) (Some (randomSplit weights s df)).

(** [(train, test) = ...] *)
Definition unpack2 {A : Type} (l : list A) : option (A * A) :=
  match l with
  | [a; b] => Some (a, b)
  | _ => None
  end.

(** Global names bound when the last cell has run, and the values the four
    evaluation cells display. *)
Record Namespace := mkNamespace {
  flight_df : DataFrame;
  numeric_cols : list string;
  input_cols : list string;
  assembler : Stage;
  pipeline : list Stage;
  pipelineModel : list Transformer;
  model_df : DataFrame;
  train : DataFrame;
  test : DataFrame;
  lr : Estimator;
  lrModel : Model;
  predictionslr : DataFrame;
  evaluator : BinaryClassificationEvaluator;
  rfclassifier : Estimator;
  rfmodel : Model;
  predictionsrf : DataFrame;
  gbt : Estimator;
  gbtModel : Model;
  predictionsgbt : DataFrame;
  paramGrid : list ParamMap;
  cv : CrossValidator;
  cvModel : Model;
  predictions : DataFrame;
  auc_lr : Q;
  auc_rf : Q;
  auc_gbt : Q;
  auc_cv : Q
}.

Definition notebook : M Namespace :=
  (* Start the Spark Session *)
  let s3_bucket := getenv env "STORAGE" in
  _ ← emit (Ev_getOrCreate "Airline ML"
              [("spark.executor.memory", Some "8g");
               ("spark.executor.cores", Some "4");
               ("spark.driver.memory", Some "6g");
               ("spark.yarn.access.hadoopFileSystems", s3_bucket)]);
  (* Import the Data *)
  flight_df_original ← call (Ev_sql "select * from smaller_flight_table")
                            (spark_sql env "select * from smaller_flight_table");
  let flight_df := sample (1 # 600) 111 (na_drop flight_df_original) in
  _ ← emit (Ev_persist flight_df);
  (* the link to the Spark UI, formatted from two environment variables *)
  _ ← emit (Ev_HTML (getenv env "CDSW_ENGINE_ID") (getenv env "CDSW_DOMAIN"));
  _ ← emit (Ev_printSchema (columns flight_df));
  (* Basic Feature Engineering *)
  flight_df ← lift (feature_engineering flight_df);
  _ ← emit (Ev_printSchema (columns flight_df));
  (* Additional Feature Indexing and Encoding *)
  let numeric_cols := ["CRS_ELAPSED_TIME"; "DISTANCE"; "WEEK"; "CRS_DEP_HOUR"] in
  let op_carrier_indexer := StringIndexer "OP_CARRIER" "OP_CARRIER_INDEXED" "keep" in
  let origin_indexer := StringIndexer "ORIGIN" "ORIGIN_INDEXED" "keep" in
  let dest_indexer := StringIndexer "DEST" "DEST_INDEXED" "keep" in
  let indexer_encoder :=
    OneHotEncoderEstimator
      ["OP_CARRIER_INDEXED"; "ORIGIN_INDEXED"; "DEST_INDEXED"]
      ["OP_CARRIER_ENCODED"; "ORIGIN_ENCODED"; "DEST_ENCODED"] in
  let input_cols := ["OP_CARRIER_ENCODED"; "ORIGIN_ENCODED"; "DEST_ENCODED"] ++ numeric_cols in
  let assembler := VectorAssembler input_cols "features" in
  let pipeline :=
    [op_carrier_indexer; origin_indexer; dest_indexer; indexer_encoder; assembler] in
  _ ← emit (Ev_Pipeline pipeline);
  (* Create the Training and Test Datasets *)
  pipelineModel ← call (Ev_Pipeline_fit pipeline flight_df) (Pipeline_fit pipeline flight_df);
  model_df ← call (Ev_PipelineModel_transform pipelineModel flight_df)
                  (PipelineModel_transform pipelineModel flight_df);
  let selectedCols := ["CANCELLED"; "features"] in
  model_df ← call (Ev_select selectedCols) (select model_df selectedCols);
  _ ← emit (Ev_printSchema (columns model_df));
  parts ← DataFrame_randomSplit model_df [7 # 10; 3 # 10] None;
  '(train, test) ← lift (unpack2 parts);
  (* Model 1 - Logistic Regression *)
  let lr := LogisticRegression "features" "CANCELLED" 10 in
  lrModel ← call (Ev_fit lr train) (fit lr train);
  predictionslr ← call (Ev_transform lrModel test) (transform lrModel test);
  let evaluator := mkEvaluator "CANCELLED" "areaUnderROC" in
  auc_lr ← call (Ev_evaluate evaluator predictionslr) (evaluate evaluator predictionslr);
  (* Save the Pipeline model: the cell holds one commented-out line,
     #pipelineModel.write().overwrite().save(...), and runs nothing. *)
  (* Rebuild the Pipeline *)
  let input_cols := ["OP_CARRIER_INDEXED"; "ORIGIN_INDEXED"; "DEST_INDEXED"] ++ numeric_cols in
  let assembler := VectorAssembler input_cols "features" in
  let pipeline := [op_carrier_indexer; origin_indexer; dest_indexer; assembler] in
  _ ← emit (Ev_Pipeline pipeline);
  pipelineModel ← call (Ev_Pipeline_fit pipeline flight_df) (Pipeline_fit pipeline flight_df);
  model_df ← call (Ev_PipelineModel_transform pipelineModel flight_df)
                  (PipelineModel_transform pipelineModel flight_df);
  let selectedCols := ["CANCELLED"; "features"] in
  model_df ← call (Ev_select selectedCols) (select model_df selectedCols);
  _ ← emit (Ev_printSchema (columns model_df));
  parts ← DataFrame_randomSplit model_df [7 # 10; 3 # 10] None;
  '(train, test) ← lift (unpack2 parts);
  (* Model 2 - Random Forest *)
  let rfclassifier := RandomForestClassifier "CANCELLED" "features" 390 in
  rfmodel ← call (Ev_fit rfclassifier train) (fit rfclassifier train);
  predictionsrf ← call (Ev_transform rfmodel test) (transform rfmodel test);
  let evaluator := mkEvaluator "CANCELLED" "areaUnderROC" in
  auc_rf ← call (Ev_evaluate evaluator predictionsrf) (evaluate evaluator predictionsrf);
  (* Model 2 - Gradient Boosted Tree *)
  let gbt := GBTClassifier 10 "features" "CANCELLED" 390 in
  gbtModel ← call (Ev_fit gbt train) (fit gbt train);
  predictionsgbt ← call (Ev_transform gbtModel test) (transform gbtModel test);
  let evaluator := mkEvaluator "CANCELLED" "areaUnderROC" in
  auc_gbt ← call (Ev_evaluate evaluator predictionsgbt) (evaluate evaluator predictionsgbt);
  (* Optimising The Model *)
  _ ← emit (Ev_print (explainParams lrModel));
  (* Rebuild the Pipeline Again *)
  let input_cols := ["OP_CARRIER_ENCODED"; "ORIGIN_ENCODED"; "DEST_ENCODED"] ++ numeric_cols in
  let assembler := VectorAssembler input_cols "features" in
  let pipeline :=
    [op_carrier_indexer; origin_indexer; dest_indexer; indexer_encoder; assembler] in
  _ ← emit (Ev_Pipeline pipeline);
  pipelineModel ← call (Ev_Pipeline_fit pipeline flight_df) (Pipeline_fit pipeline flight_df);
  model_df ← call (Ev_PipelineModel_transform pipelineModel flight_df)
                  (PipelineModel_transform pipelineModel flight_df);
  let selectedCols := ["CANCELLED"; "features"] in
  model_df ← call (Ev_select selectedCols) (select model_df selectedCols);
  _ ← emit (Ev_printSchema (columns model_df));
  parts ← DataFrame_randomSplit model_df [7 # 10; 3 # 10] None;
  '(train, test) ← lift (unpack2 parts);
  (* the grid search *)
  let paramGrid :=
    build
      (addGrid
         (addGrid
            (addGrid ParamGridBuilder
               (mkParam (uid lrModel) "maxIter") [PyInt 5; PyInt 10; PyInt 100])
            (mkParam (uid lrModel) "regParam")
            [PyFloat (0 # 1); PyFloat (1 # 100); PyFloat (1 # 10)])
         (mkParam (uid lrModel) "elasticNetParam")
         [PyFloat (0 # 1); PyFloat (1 # 2); PyFloat (1 # 1)]) in
  let cv := mkCrossValidator lr paramGrid evaluator 5 3 in
  _ ← emit (Ev_CrossValidator cv);
  cvModel ← call (Ev_cv_fit cv train) (cv_fit cv train);
  predictions ← call (Ev_transform cvModel test) (transform cvModel test);
  auc_cv ← call (Ev_evaluate evaluator predictions) (evaluate evaluator predictions);
  (* the best model's parameters, printed *)
  regParam ← lift (bestModel_get cvModel "getRegParam");
  _ ← emit (Ev_print ("regParam = " ++ regParam));
  elasticNetParam ← lift (bestModel_get cvModel "getElasticNetParam");
  _ ← emit (Ev_print ("elasticNetParam = " ++ elasticNetParam));
  maxIter ← lift (bestModel_get cvModel "getMaxIter");
  _ ← emit (Ev_print ("maxIter = " ++ maxIter));
  (* the ROC curve of lrModel, plotted *)
  roc ← lift (summary_roc lrModel);
  _ ← emit (Ev_plot roc);
  ret {| flight_df := flight_df; numeric_cols := numeric_cols; input_cols := input_cols;
         assembler := assembler; pipeline := pipeline; pipelineModel := pipelineModel;
         model_df := model_df; train := train; test := test;
         lr := lr; lrModel := lrModel; predictionslr := predictionslr;
         evaluator := evaluator;
         rfclassifier := rfclassifier; rfmodel := rfmodel; predictionsrf := predictionsrf;
         gbt := gbt; gbtModel := gbtModel; predictionsgbt := predictionsgbt;
         paramGrid := paramGrid; cv := cv; cvModel := cvModel; predictions := predictions;
         auc_lr := auc_lr; auc_rf := auc_rf; auc_gbt := auc_gbt; auc_cv := auc_cv |}.

Definition world0 : World := {| trace := []; draws := 0; store := ∅ |}.

End Notebook.

(** ** Reading a trace *)

Section Vocabulary.
Context {V : SqlValues} {L : SparkML}.

(** The stage lists handed to [Pipeline(stages=...)], in program order. *)
Fixpoint pipelines_built (tr : list event) : list (list Stage) :=
  match tr with
  | [] => []
  | Ev_Pipeline stages :: rest => stages :: pipelines_built rest
  | _ :: rest => pipelines_built rest
  end.

(** The [randomSplit] calls: weights, seed argument, seed used, frame. *)
Fixpoint splits (tr : list event) : list (list Q * option Z * Z * DataFrame) :=
  match tr with
  | [] => []
  | Ev_randomSplit weights seed s df :: rest => (weights, seed, s, df) :: splits rest
  | _ :: rest => splits rest
  end.

(** Every estimator fitted, with the pipeline most recently built before
    the fit; a cross-validator counts for the estimator it wraps. *)
Fixpoint fits_under (current : list Stage) (tr : list event) : list (Estimator * list Stage) :=
  match tr with
  | [] => []
  | Ev_Pipeline stages :: rest => fits_under stages rest
  | Ev_fit e _ :: rest => (e, current) :: fits_under current rest
  | Ev_cv_fit c _ :: rest => (getEstimator c, current) :: fits_under current rest
  | _ :: rest => fits_under current rest
  end.


Definition is_indexer (inputCol : string) (s : Stage) : bool :=
  match s with
  | StringIndexer i _ _ => String.eqb i inputCol
  | _ => false
  end.

Definition is_encoder (s : Stage) : bool :=
  match s with
  | OneHotEncoderEstimator _ _ => true
  | _ => false
  end.

Definition is_assembler (outputCol : string) (s : Stage) : bool :=
  match s with
  | VectorAssembler _ o => String.eqb o outputCol
  | _ => false
  end.

(** Indexers of OP_CARRIER, ORIGIN and DEST, then the encoder if there is
    one, then the assembler of [features]. *)
Definition stages_in_order (stages : list Stage) : bool :=
  match stages with
  | [a; b; c; d] =>
      is_indexer "OP_CARRIER" a && is_indexer "ORIGIN" b && is_indexer "DEST" c
      && is_assembler "features" d
  | [a; b; c; e; d] =>
      is_indexer "OP_CARRIER" a && is_indexer "ORIGIN" b && is_indexer "DEST" c
      && is_encoder e && is_assembler "features" d
  | _ => false
  end.

(** Transformer [t] of a fitted pipeline stands for stage [s]. *)
Definition fitted_from (s : Stage) (t : Transformer) : Prop :=
  match t with
  | Plain s' => s' = s /\ isEstimator s = false
  | Fitted m => isEstimator s = true /\ exists dataset, stage_fit s dataset = Some m
  end.

(** What C4 asks of one event. *)
Definition applied_in_order (e : event) : Prop :=
  match e with
  | Ev_Pipeline stages => stages_in_order stages = true
  | Ev_Pipeline_fit stages _ => stages_in_order stages = true
  | Ev_PipelineModel_transform pm _ =>
      exists stages, stages_in_order stages = true /\ Forall2 fitted_from stages pm
  | _ => True
  end.

(** Stage [s], fitted on [df], gave transformer [t]: the stage itself when
    it is no estimator, else the model its [fit] returns on [df]. *)
Definition fitted_on (s : Stage) (t : Transformer) (df : DataFrame) : Prop :=
  match t with
  | Plain s' => s' = s /\ isEstimator s = false
  | Fitted m => isEstimator s = true /\ stage_fit s df = Some m
  end.

(** The stages ran one after the other, first to last, from [df]: each was
    fitted on the frame the stages before it produced, and its transformer
    applied to that frame gave the frame of the next; [df'] is what the last
    one returned. *)
Fixpoint staged (stages : list Stage) (ts : list Transformer) (df df' : DataFrame) : Prop :=
  match stages, ts with
  | [], [] => df' = df
  | s :: stages, t :: ts =>
      fitted_on s t df
      /\ exists next, transformer_transform t df = Some next /\ staged stages ts next df'
  | _, _ => False
  end.

(** The pipeline of [stages] was fitted on [df] and the fitted pipeline
    applied to [df]; the stages ran one after the other in the order of the
    list, and [model_df] is the label and the features of what came out. *)
Definition applied_stage_by_stage (tr : list event) (stages : list Stage)
    (df model_df : DataFrame) : Prop :=
  exists pm transformed,
    In (Ev_Pipeline_fit stages df) tr
    /\ Pipeline_fit stages df = Some pm
    /\ In (Ev_PipelineModel_transform pm df) tr
    /\ PipelineModel_transform pm df = Some transformed
    /\ staged stages pm df transformed
    /\ select transformed ["CANCELLED"; "features"] = Some model_df.

(** The columns the last stage, an assembler, reads. *)
Definition assembler_inputs (stages : list Stage) : option (list string) :=
  match List.last stages (StringIndexer "" "" "") with
  | VectorAssembler inputCols _ => Some inputCols
  | _ => None
  end.

(** [e] was fitted on the first part of a split and scored on the second:
    area under ROC of its predictions against [CANCELLED]. *)
Definition trained_and_scored (tr : list event) (e : Estimator) (score : Q) : Prop :=
  exists weights seed s df train test m preds,
    In (Ev_fit e train) tr /\ fit e train = Some m
    /\ In (Ev_transform m test) tr /\ transform m test = Some preds
    /\ In (Ev_evaluate (mkEvaluator "CANCELLED" "areaUnderROC") preds) tr
    /\ evaluate (mkEvaluator "CANCELLED" "areaUnderROC") preds = Some score
    /\ randomSplit weights s df = [train; test]
    /\ In (Ev_randomSplit weights seed s df) tr.

(** The three classifiers of a finished run with their test-set scores. *)
Definition scored (ns : Namespace) : list (Estimator * Q) :=
  [(lr ns, auc_lr ns); (rfclassifier ns, auc_rf ns); (gbt ns, auc_gbt ns)].

(** C1 as the spec words it: the cross-validated estimator is one of the
    three and no other of them scored higher. *)
Definition grid_search_on_best (ns : Namespace) : Prop :=
  exists a, In (getEstimator (cv ns), a) (scored ns)
            /\ forall e b, In (e, b) (scored ns) -> (b <= a)%Q.

(** The frames handed to [pipeline.fit] and to [pipelineModel.transform],
    in program order. *)
Fixpoint pipeline_frames (tr : list event) : list DataFrame :=
  match tr with
  | [] => []
  | Ev_Pipeline_fit _ df :: rest => df :: pipeline_frames rest
  | Ev_PipelineModel_transform _ df :: rest => df :: pipeline_frames rest
  | _ :: rest => pipeline_frames rest
  end.

(** The pipeline of [stages] was fitted on [df], the fitted pipeline it
    gave was applied to [df], and [model_df] is the label and the features
    of the frame that application returned. *)
Definition fitted_then_applied (tr : list event) (stages : list Stage)
    (df model_df : DataFrame) : Prop :=
  exists pm transformed,
    In (Ev_Pipeline_fit stages df) tr
    /\ Pipeline_fit stages df = Some pm
    /\ In (Ev_PipelineModel_transform pm df) tr
    /\ PipelineModel_transform pm df = Some transformed
    /\ select transformed ["CANCELLED"; "features"] = Some model_df.

(** What the run wrote to standard output: a string through [print], or
    the schema of a frame - recorded by its column names - through
    [printSchema]. *)
Inductive output :=
| Printed (s : string)
| SchemaPrinted (schema : list string).

(** What was written to standard output and what was plotted, in program
    order. *)
Fixpoint printed (tr : list event) : list output :=
  match tr with
  | [] => []
  | Ev_printSchema schema :: rest => SchemaPrinted schema :: printed rest
  | Ev_print s :: rest => Printed s :: printed rest
  | _ :: rest => printed rest
  end.

Fixpoint plots (tr : list event) : list DataFrame :=
  match tr with
  | [] => []
  | Ev_plot roc :: rest => roc :: plots rest
  | _ :: rest => plots rest
  end.

(** The columns a classifier reads. *)
Definition labelCol_of (e : Estimator) : string :=
  match e with
  | LogisticRegression _ l _ => l
  | RandomForestClassifier l _ _ => l
  | GBTClassifier _ _ l _ => l
  end.

Definition featuresCol_of (e : Estimator) : string :=
  match e with
  | LogisticRegression f _ _ => f
  | RandomForestClassifier _ f _ => f
  | GBTClassifier _ f _ _ => f
  end.

(** [part] is the [k]-th frame some [randomSplit] of the trace returned. *)
Definition part_of_split (k : nat) (tr : list event) (part : DataFrame) : Prop :=
  exists weights seed s df,
    In (Ev_randomSplit weights seed s df) tr /\ randomSplit weights s df !! k = Some part.

(** Estimators are fitted on first parts, models applied to second parts. *)
Definition fits_first_applies_second (tr : list event) (e : event) : Prop :=
  match e with
  | Ev_fit _ df => part_of_split 0 tr df
  | Ev_cv_fit _ df => part_of_split 0 tr df
  | Ev_transform _ df => part_of_split 1 tr df
  | _ => True
  end.

(** The columns a feature stage reads and the columns it adds. *)
Definition stage_inputs (s : Stage) : list string :=
  match s with
  | StringIndexer i _ _ => [i]
  | OneHotEncoderEstimator ins _ => ins
  | VectorAssembler ins _ => ins
  end.

Definition stage_outputs (s : Stage) : list string :=
  match s with
  | StringIndexer _ o _ => [o]
  | OneHotEncoderEstimator _ outs => outs
  | VectorAssembler _ o => [o]
  end.

(** Every stage reads only columns that are [available] or that an earlier
    stage of the list adds. *)
Fixpoint wired (available : list string) (stages : list Stage) : bool :=
  match stages with
  | [] => true
  | s :: rest =>
      forallb (fun c => existsb (String.eqb c) available) (stage_inputs s)
      && wired (available ++ stage_outputs s) rest
  end.

(** How the script configures what it calls: the one query, splits of
    weights 0.7 and 0.3 without a seed, the two selected columns, pipelines
    in the fixed order, classifiers and evaluator on CANCELLED and features,
    a five-fold cross-validator around the logistic regression - and never a
    save. *)
Definition well_configured (e : event) : Prop :=
  match e with
  | Ev_sql q => q = "select * from smaller_flight_table"
  | Ev_randomSplit weights seed _ _ => weights = [7 # 10; 3 # 10] /\ seed = None
  | Ev_select names => names = ["CANCELLED"; "features"]
  | Ev_Pipeline stages => stages_in_order stages = true
  | Ev_Pipeline_fit stages _ => stages_in_order stages = true
  | Ev_fit e _ => labelCol_of e = "CANCELLED" /\ featuresCol_of e = "features"
  | Ev_evaluate ev _ => ev = mkEvaluator "CANCELLED" "areaUnderROC"
  | Ev_CrossValidator c =>
      getEstimator c = LogisticRegression "features" "CANCELLED" 10
      /\ getEvaluator c = mkEvaluator "CANCELLED" "areaUnderROC"
      /\ getNumFolds c = 5%Z
  | Ev_cv_fit c _ =>
      getEstimator c = LogisticRegression "features" "CANCELLED" 10
      /\ getEvaluator c = mkEvaluator "CANCELLED" "areaUnderROC"
      /\ getNumFolds c = 5%Z
  | Ev_save _ => False
  | _ => True
  end.

End Vocabulary.

(** ** A small interpretation of the interfaces

    Enough of Spark to run the notebook on a four-row table: strings,
    integers and doubles as cell values; indexers, encoder and assembler that
    only check their input columns and add their output columns; classifiers
    whose fitted model remembers its kind and whose score depends on it. *)
Module Demo.

Inductive dval :=
| DNull
| DStr (s : string)
| DInt (z : Z)
| DDouble (q : Q)
| DBool (b : bool).

Definition digit (a : ascii) : option Z :=
  let n := N_of_ascii a in
  if ((48 <=? n)%N && (n <=? 57)%N)%bool then Some (Z.of_N (n - 48)) else None.

Fixpoint parse_digits (acc : Z) (s : string) : option Z :=
  match s with
  | EmptyString => Some acc
  | String a s' => d ← digit a; parse_digits (10 * acc + d)%Z s'
  end.

Definition dlit (v : pyvalue) : dval :=
  match v with
  | PyInt z => DInt z
  | PyFloat q => DDouble q
  | PyStr s => DStr s
  end.

Definition dlength (v : dval) : dval :=
  match v with
  | DStr s => DInt (Z.of_nat (String.length s))
  | _ => DNull
  end.

Definition dconcat (a b : dval) : dval :=
  match a, b with
  | DStr x, DStr y => DStr (x ++ y)
  | _, _ => DNull
  end.

Definition dequal (a b : dval) : dval :=
  match a, b with
  | DInt x, DInt y => DBool (x =? y)%Z
  | DStr x, DStr y => DBool (String.eqb x y)
  | _, _ => DNull
  end.

Definition dcast (ty : string) (v : dval) : dval :=
  if String.eqb ty "double" then
    match v with
    | DStr s => match s with
                | EmptyString => DNull
                | _ => from_option (fun z => DDouble (z # 1)) DNull (parse_digits 0 s)
                end
    | DInt z => DDouble (z # 1)
    | DDouble q => DDouble q
    | _ => DNull
    end
  else DNull.

#[export] Instance values : SqlValues := {|
  value := dval;
  sql_null := DNull;
  sql_lit := dlit;
  sql_length := dlength;
  sql_concat := dconcat;
  sql_equal := dequal;
  sql_cast := dcast;
  sql_is_true := fun v => match v with DBool true => true | _ => false end;
  sql_is_null := fun v => match v with DNull => true | _ => false end
|}.

Definition smaller_flight_table : DataFrame :=
  {| columns := ["OP_CARRIER"; "ORIGIN"; "DEST"; "CRS_DEP_TIME"; "CRS_ELAPSED_TIME";
                 "DISTANCE"; "WEEK"; "CANCELLED"];
     rows := [ [DStr "AA"; DStr "JFK"; DStr "LAX"; DStr "930"; DDouble (360 # 1);
                DDouble (2475 # 1); DDouble (3 # 1); DDouble (0 # 1)];
               [DStr "DL"; DStr "ATL"; DStr "ORD"; DStr "1230"; DDouble (125 # 1);
                DDouble (606 # 1); DDouble (3 # 1); DDouble (1 # 1)];
               [DStr "UA"; DStr "SFO"; DStr "DEN"; DStr "45"; DDouble (150 # 1);
                DDouble (967 # 1); DDouble (7 # 1); DDouble (0 # 1)];
               [DStr "AA"; DStr "ORD"; DStr "JFK"; DStr "2359"; DDouble (130 # 1);
                DDouble (740 # 1); DDouble (9 # 1); DDouble (1 # 1)] ] |}.

(** Rows are dealt to the first part or the second by position and seed. *)
Fixpoint deal (i : Z) (seed : Z) (rs : list (list dval)) : list (list dval) * list (list dval) :=
  match rs with
  | [] => ([], [])
  | r :: rest =>
      let '(a, b) := deal (i + 1) seed rest in
      if ((i + seed) mod 3 <? 2)%Z then (r :: a, b) else (a, r :: b)
  end.

Definition drandomSplit (weights : list Q) (seed : Z) (df : DataFrame) : list DataFrame :=
  match weights with
  | [_; _] =>
      let '(a, b) := deal 0 seed (rows df) in
      [ {| columns := columns df; rows := a |}; {| columns := columns df; rows := b |} ]
  | _ => []
  end.

Fixpoint copy_columns (df : DataFrame) (ins outs : list string) : option DataFrame :=
  match ins, outs with
  | i :: ins', o :: outs' => df' ← withColumn df o (col i); copy_columns df' ins' outs'
  | [], [] => Some df
  | _, _ => None
  end.

Definition dstage_transform (s : Stage) (df : DataFrame) : option DataFrame :=
  match s with
  | StringIndexer i o _ => copy_columns df [i] [o]
  | OneHotEncoderEstimator ins outs => copy_columns df ins outs
  | VectorAssembler ins o =>
      if forallb (hasColumn (columns df)) ins
      then withColumn df o (lit (PyStr "vector"))
      else None
  end.

Definition dstage_fit (s : Stage) (df : DataFrame) : option Stage :=
  _ ← dstage_transform s df; Some s.

Definition duid (m : Estimator) : string :=
  match m with
  | LogisticRegression _ _ _ => "LogisticRegression_4f2a"
  | RandomForestClassifier _ _ _ => "RandomForestClassifier_91c3"
  | GBTClassifier _ _ _ _ => "GBTClassifier_07de"
  end.

Definition dfit (e : Estimator) (df : DataFrame) : option Estimator :=
  if hasColumn (columns df) "features" && hasColumn (columns df) "CANCELLED"
  then Some e else None.

Definition dtransform (m : Estimator) (df : DataFrame) : option DataFrame :=
  withColumn df "rawPrediction" (lit (PyStr (duid m))).

Definition devaluate (ev : BinaryClassificationEvaluator) (df : DataFrame) : option Q :=
  if hasColumn (columns df) (getLabelCol ev) && hasColumn (columns df) "rawPrediction" then
    match rows df with
    | r :: _ =>
        match getField (columns df) r "rawPrediction" with
        | DStr "LogisticRegression_4f2a" => Some (1 # 2)
        | DStr "RandomForestClassifier_91c3" => Some (3 # 5)
        | DStr "GBTClassifier_07de" => Some (9 # 10)
        | _ => None
        end
    | [] => Some (0 # 1)
    end
  else None.

#[export] Instance ml : SparkML := {|
  sample := fun _ _ df => df;
  randomSplit := drandomSplit;
  StageModel := Stage;
  stage_fit := dstage_fit;
  stage_transform := dstage_transform;
  stage_model_transform := dstage_transform;
  Model := Estimator;
  uid := duid;
  fit := dfit;
  transform := dtransform;
  evaluate := devaluate;
  cv_fit := fun c df => dfit (getEstimator c) df;
  explainParams := fun _ => "maxIter: max number of iterations (>= 0).";
  bestModel_get := fun _ _ => Some "0.0";
  summary_roc := fun _ => Some {| columns := ["FPR"; "TPR"];
                                  rows := [[DDouble (0 # 1); DDouble (0 # 1)];
                                           [DDouble (1 # 1); DDouble (1 # 1)]] |}
|}.

(** The environment: no STORAGE variable, the table above behind the
    query, and [shift], [shift + 1], ... as the draws of the generator. *)
Definition env (shift : Z) : Env := {|
  getenv := fun _ => None;
  spark_sql := fun q =>
    if String.eqb q "select * from smaller_flight_table" then Some smaller_flight_table
    else None;
  random_randint := fun n => (Z.of_nat n + shift)%Z
|}.

(** What the feature-engineering cell makes of the table. *)
Definition engineered : DataFrame :=
  {| columns := ["OP_CARRIER"; "ORIGIN"; "DEST"; "CRS_DEP_TIME"; "CRS_ELAPSED_TIME";
                 "DISTANCE"; "WEEK"; "CANCELLED"; "CRS_DEP_HOUR"];
     rows := [ [DStr "AA"; DStr "JFK"; DStr "LAX"; DStr "930"; DDouble (360 # 1);
                DDouble (2475 # 1); DDouble (3 # 1); DDouble (0 # 1); DDouble (930 # 1)];
               [DStr "DL"; DStr "ATL"; DStr "ORD"; DStr "1230"; DDouble (125 # 1);
                DDouble (606 # 1); DDouble (3 # 1); DDouble (1 # 1); DDouble (1230 # 1)];
               [DStr "UA"; DStr "SFO"; DStr "DEN"; DStr "45"; DDouble (150 # 1);
                DDouble (967 # 1); DDouble (7 # 1); DDouble (0 # 1); DDouble (45 # 1)];
               [DStr "AA"; DStr "ORD"; DStr "JFK"; DStr "2359"; DDouble (130 # 1);
                DDouble (740 # 1); DDouble (9 # 1); DDouble (1 # 1); DDouble (2359 # 1)] ] |}.

(** Tells two splits apart by the size of their first part. *)
Definition first_part_has (n : nat) (parts : list DataFrame) : bool :=
  match parts with
  | part :: _ => Nat.eqb (List.length (rows part)) n
  | [] => false
  end.

(** Two environments in which the notebook cannot finish: one without the
    table, one whose table has no CRS_DEP_TIME column. *)
Definition env_without_table : Env := {|
  getenv := fun _ => None;
  spark_sql := fun _ => None;
  random_randint := fun n => Z.of_nat n
|}.

Definition table_without_time : DataFrame :=
  {| columns := ["OP_CARRIER"; "ORIGIN"; "DEST"; "CANCELLED"];
     rows := [ [DStr "AA"; DStr "JFK"; DStr "LAX"; DDouble (0 # 1)] ] |}.

Definition env_without_time : Env := {|
  getenv := fun _ => None;
  spark_sql := fun _ => Some table_without_time;
  random_randint := fun n => Z.of_nat n
|}.

End Demo.


(** * Properties *)

(** ** Column resolution *)

Lemma resolver_spec a b : resolver a b = true <-> lowercase a = lowercase b.
Proof. unfold resolver. apply String.eqb_eq. Qed.

Lemma resolver_refl a : resolver a a = true.
Proof. apply resolver_spec. reflexivity. Qed.

Lemma resolver_sym a b : resolver a b = resolver b a.
Proof. unfold resolver. apply String.eqb_sym. Qed.

Lemma resolver_trans a b c :
  resolver a b = true -> resolver b c = true -> resolver a c = true.
Proof. rewrite !resolver_spec. congruence. Qed.

(** A column that resolves to one of two names that do not resolve to each
    other does not resolve to the second. *)
Lemma resolver_apart f a b :
  resolver a b = false -> resolver f a = true -> resolver f b = false.
Proof.
  intros Hab Hfa. destruct (resolver f b) eqn:Hfb; [|reflexivity].
  rewrite resolver_sym in Hfa. rewrite (resolver_trans _ _ _ Hfa Hfb) in Hab. discriminate.
Qed.

Lemma forallb_ext_in {A : Type} (f g : A -> bool) (l : list A) :
  (forall a, In a l -> f a = g a) -> forallb f l = forallb g l.
Proof.
  induction l as [|a l IH]; simpl; intros H; [reflexivity|].
  rewrite (H a) by (left; reflexivity). f_equal. apply IH. intros b Hb. apply H. right. exact Hb.
Qed.

Lemma hasColumn_app s1 s2 n : hasColumn (s1 ++ s2) n = hasColumn s1 n || hasColumn s2 n.
Proof. unfold hasColumn. apply existsb_app. Qed.

Lemma hasColumn_fieldIndex schema n :
  hasColumn schema n = true <-> is_Some (fieldIndex schema n).
Proof.
  induction schema as [|f fs IH]; simpl.
  - split; [discriminate | intros [? [=]]].
  - destruct (resolver f n); simpl; [split; eauto|].
    rewrite IH. destruct (fieldIndex fs n); simpl; split; intros [? [=]]; eauto.
Qed.

Lemma fieldIndex_lookup schema n k :
  fieldIndex schema n = Some k ->
  exists f, schema !! k = Some f /\ resolver f n = true.
Proof.
  revert k. induction schema as [|f fs IH]; simpl; intros k; [discriminate|].
  destruct (resolver f n) eqn:Hf.
  - intros [= <-]. eauto.
  - destruct (fieldIndex fs n) as [j|]; simpl; [|discriminate].
    intros [= <-]. destruct (IH j eq_refl) as (g & ? & ?). eauto.
Qed.

(** ** [withColumn] *)

Section DataFrameFacts.
Context {V : SqlValues}.

Lemma resolver_renamed colName f : resolver (renamed colName f) colName = resolver f colName.
Proof.
  unfold renamed. destruct (resolver f colName) eqn:E; [apply resolver_refl | exact E].
Qed.

Lemma resolver_renamed_other colName f n :
  resolver colName n = false -> resolver (renamed colName f) n = resolver f n.
Proof.
  intros Hn. unfold renamed. destruct (resolver f colName) eqn:E; [|reflexivity].
  rewrite Hn. symmetry. eapply resolver_apart; eauto.
Qed.

Lemma replacedAndExisting_names i schema colName c :
  map fst (replacedAndExisting i schema colName c) = map (renamed colName) schema.
Proof.
  revert i. induction schema as [|f fs IH]; intros i; simpl; [reflexivity|].
  rewrite IH. unfold renamed. destruct (resolver f colName); reflexivity.
Qed.

Lemma replacedAndExisting_length i schema colName c :
  List.length (replacedAndExisting i schema colName c) = List.length schema.
Proof. revert i. induction schema; intros i; simpl; [reflexivity | f_equal; auto]. Qed.

Lemma replacedAndExisting_lookup i schema colName c j :
  replacedAndExisting i schema colName c !! j =
  (fun f => if resolver f colName then (colName, c) else (f, attribute (i + j))) <$> schema !! j.
Proof.
  revert i j. induction schema as [|f fs IH]; intros i j; simpl; [reflexivity|].
  destruct j as [|j]; simpl.
  - rewrite Nat.add_0_r. reflexivity.
  - rewrite IH. replace (S i + j)%nat with (i + S j)%nat by lia. reflexivity.
Qed.

Lemma replacedAndExisting_app i s1 s2 colName c :
  replacedAndExisting i (s1 ++ s2) colName c =
  replacedAndExisting i s1 colName c ++ replacedAndExisting (i + List.length s1) s2 colName c.
Proof.
  revert i. induction s1 as [|f fs IH]; intros i; simpl.
  - rewrite Nat.add_0_r. reflexivity.
  - rewrite IH. replace (S i + List.length fs)%nat with (i + S (List.length fs))%nat by lia.
    reflexivity.
Qed.

Lemma replacedAndExisting_renamed i schema colName c :
  replacedAndExisting i (map (renamed colName) schema) colName c =
  replacedAndExisting i schema colName c.
Proof.
  revert i. induction schema as [|f fs IH]; intros i; simpl; [reflexivity|].
  rewrite IH, resolver_renamed. unfold renamed.
  destruct (resolver f colName) eqn:E; reflexivity.
Qed.

Lemma hasColumn_renamed schema colName n :
  resolver colName n = false ->
  hasColumn (map (renamed colName) schema) n = hasColumn schema n.
Proof.
  intros Hn. induction schema as [|f fs IH]; simpl; [reflexivity|].
  rewrite resolver_renamed_other by exact Hn. f_equal. exact IH.
Qed.

Lemma hasColumn_renamed_self schema colName :
  hasColumn (map (renamed colName) schema) colName = hasColumn schema colName.
Proof.
  induction schema as [|f fs IH]; simpl; [reflexivity|].
  rewrite resolver_renamed. f_equal. exact IH.
Qed.

Lemma fieldIndex_renamed schema colName n :
  resolver colName n = false ->
  fieldIndex (map (renamed colName) schema) n = fieldIndex schema n.
Proof.
  intros Hn. induction schema as [|f fs IH]; simpl; [reflexivity|].
  rewrite resolver_renamed_other by exact Hn. rewrite IH. reflexivity.
Qed.

Lemma fieldIndex_app_miss s1 s2 n :
  hasColumn s2 n = false -> fieldIndex (s1 ++ s2) n = fieldIndex s1 n.
Proof.
  intros Hn. induction s1 as [|f fs IH]; simpl.
  - destruct (fieldIndex s2 n) eqn:E; [|reflexivity].
    assert (hasColumn s2 n = true) by (apply hasColumn_fieldIndex; eauto). congruence.
  - rewrite IH. reflexivity.
Qed.

Lemma withColumn_exprs_names schema colName c :
  map fst (replacedAndExisting 0 schema colName c ++ newColumns schema colName c)
  = withColumn_schema schema colName.
Proof.
  unfold withColumn_schema, newColumns. rewrite map_app, replacedAndExisting_names.
  destruct (hasColumn schema colName); reflexivity.
Qed.

Lemma withColumn_columns df colName c df' :
  withColumn df colName c = Some df' ->
  columns df' = withColumn_schema (columns df) colName.
Proof.
  unfold withColumn, project. destruct (forallb _ _); [|discriminate].
  intros [= <-]. simpl. apply withColumn_exprs_names.
Qed.

Lemma hasColumn_withColumn_schema schema colName :
  hasColumn (withColumn_schema schema colName) colName = true.
Proof.
  unfold withColumn_schema. rewrite hasColumn_app, hasColumn_renamed_self.
  destruct (hasColumn schema colName) eqn:E; simpl; [reflexivity|].
  rewrite resolver_refl. reflexivity.
Qed.

Lemma hasColumn_withColumn_schema_other schema colName n :
  resolver colName n = false ->
  hasColumn (withColumn_schema schema colName) n = hasColumn schema n.
Proof.
  intros Hn. unfold withColumn_schema. rewrite hasColumn_app, hasColumn_renamed by exact Hn.
  destruct (hasColumn schema colName); simpl; [|rewrite Hn]; apply orb_false_r.
Qed.

Lemma fieldIndex_withColumn_schema_other schema colName n :
  resolver colName n = false ->
  fieldIndex (withColumn_schema schema colName) n = fieldIndex schema n.
Proof.
  intros Hn. unfold withColumn_schema. rewrite fieldIndex_app_miss.
  - apply fieldIndex_renamed, Hn.
  - destruct (hasColumn schema colName); simpl; [reflexivity | rewrite Hn; reflexivity].
Qed.

(** Applied to the schema it produced, [withColumn] of the same name builds
    the same list of expressions as on the original schema. *)
Lemma withColumn_exprs_again schema colName c :
  replacedAndExisting 0 (withColumn_schema schema colName) colName c
    ++ newColumns (withColumn_schema schema colName) colName c
  = replacedAndExisting 0 schema colName c ++ newColumns schema colName c.
Proof.
  unfold newColumns at 1. rewrite hasColumn_withColumn_schema, app_nil_r.
  unfold withColumn_schema, newColumns.
  rewrite replacedAndExisting_app, replacedAndExisting_renamed.
  destruct (hasColumn schema colName); simpl; [reflexivity|].
  rewrite resolver_refl. reflexivity.
Qed.

End DataFrameFacts.

Section WithColumnRows.
Context {V : SqlValues}.

Lemma cell_map {A : Type} (g : A -> value) (l : list A) (j : nat) (a : A) :
  l !! j = Some a -> cell (map g l) j = g a.
Proof.
  intros Hj. unfold cell. rewrite nth_lookup, list_lookup_fmap, Hj. reflexivity.
Qed.

(** A column that [withColumn colName] leaves alone keeps its position and
    its value. *)
Lemma withColumn_keeps_cell schema colName c (r : Row) j f :
  schema !! j = Some f -> resolver f colName = false ->
  cell (map (fun e => eval schema r e.2)
          (replacedAndExisting 0 schema colName c ++ newColumns schema colName c)) j
  = cell r j.
Proof.
  intros Hj Hf. erewrite cell_map.
  2:{ rewrite lookup_app_l.
      - rewrite replacedAndExisting_lookup, Hj. simpl. rewrite Hf. reflexivity.
      - rewrite replacedAndExisting_length. eapply lookup_lt_Some, Hj. }
  reflexivity.
Qed.

Lemma withColumn_keeps_field schema colName c (r : Row) n :
  resolver colName n = false ->
  getField (withColumn_schema schema colName)
    (map (fun e => eval schema r e.2)
       (replacedAndExisting 0 schema colName c ++ newColumns schema colName c)) n
  = getField schema r n.
Proof.
  intros Hn. unfold getField. rewrite fieldIndex_withColumn_schema_other by exact Hn.
  destruct (fieldIndex schema n) as [k|] eqn:Hk; [|reflexivity].
  destruct (fieldIndex_lookup _ _ _ Hk) as (f & Hf & Hres).
  eapply withColumn_keeps_cell; [exact Hf|].
  destruct (resolver f colName) eqn:E; [|reflexivity].
  rewrite (resolver_apart f colName n Hn E) in Hres. discriminate.
Qed.

(** An expression that reads no column resolving to [colName] evaluates the
    same before and after [withColumn colName]. *)
Lemma eval_after_withColumn schema colName c (r : Row) c2 :
  attribute_free c2 = true ->
  forallb (fun n => negb (resolver colName n)) (references c2) = true ->
  eval (withColumn_schema schema colName)
    (map (fun e => eval schema r e.2)
       (replacedAndExisting 0 schema colName c ++ newColumns schema colName c)) c2
  = eval schema r c2.
Proof.
  induction c2 as [i|n|v|a IHa|a IHa b IHb|a IHa b IHb|a IHa b IHb|a IHa b IHb e IHe|a IHa ty];
    simpl; intros Hfree Href;
    rewrite ?forallb_app, ?andb_true_iff in *; try discriminate; try reflexivity.
  - apply withColumn_keeps_field. destruct Href as [Hn _].
    apply negb_true_iff in Hn. exact Hn.
  - rewrite IHa by assumption. reflexivity.
  - destruct Hfree, Href. rewrite IHa, IHb by assumption. reflexivity.
  - destruct Hfree, Href. rewrite IHa, IHb by assumption. reflexivity.
  - destruct Hfree, Href. rewrite IHa, IHb by assumption. reflexivity.
  - destruct Hfree as [[? ?] ?], Href as [? [? ?]].
    rewrite IHa, IHb, IHe by assumption. reflexivity.
  - rewrite IHa by assumption. reflexivity.
Qed.

Lemma resolved_after_withColumn schema colName c2 :
  forallb (fun n => negb (resolver colName n)) (references c2) = true ->
  resolved (withColumn_schema schema colName) c2 = resolved schema c2.
Proof.
  unfold resolved. induction (references c2) as [|n ns IH]; simpl; [reflexivity|].
  rewrite andb_true_iff. intros [Hn Hns].
  rewrite IH by exact Hns. rewrite hasColumn_withColumn_schema_other; [reflexivity|].
  destruct (resolver colName n); [discriminate | reflexivity].
Qed.

(** Every expression [withColumn colName] selects is the new expression or
    a column kept by position. *)
Lemma withColumn_exprs_cases schema colName c e :
  In e (replacedAndExisting 0 schema colName c ++ newColumns schema colName c) ->
  e.2 = c \/ exists j f, e.2 = attribute j /\ schema !! j = Some f /\ resolver f colName = false.
Proof.
  rewrite in_app_iff. intros [He|He].
  - apply list_elem_of_In, list_elem_of_lookup in He as [j Hj].
    rewrite replacedAndExisting_lookup in Hj.
    destruct (schema !! j) as [f|] eqn:Hf; [|discriminate]. simpl in Hj.
    destruct (resolver f colName) eqn:E; injection Hj as <-; simpl; [left; reflexivity|].
    right. eauto.
  - unfold newColumns in He. destruct (hasColumn schema colName); simpl in He; [tauto|].
    destruct He as [<-|[]]. left. reflexivity.
Qed.

(** A second [withColumn] of the same name, whose expression does not read
    that column, makes the first one dead. *)
Lemma withColumn_overwrites df colName c1 c2 df1 :
  withColumn df colName c1 = Some df1 ->
  attribute_free c2 = true ->
  forallb (fun n => negb (resolver colName n)) (references c2) = true ->
  withColumn df1 colName c2 = withColumn df colName c2.
Proof.
  intros H1 Hfree Href.
  assert (Hcols : columns df1 = withColumn_schema (columns df) colName)
    by (eapply withColumn_columns; eauto).
  unfold withColumn in *. rewrite Hcols, withColumn_exprs_again.
  unfold project in *. rewrite Hcols.
  destruct (forallb _ (_ ++ newColumns (columns df) colName c1)); [|discriminate].
  injection H1 as <-. simpl.
  set (es := replacedAndExisting 0 (columns df) colName c2 ++ newColumns (columns df) colName c2).
  assert (Hres : forallb (fun e => resolved (withColumn_schema (columns df) colName) e.2) es
                 = forallb (fun e => resolved (columns df) e.2) es).
  { apply forallb_ext_in. intros e He.
    destruct (withColumn_exprs_cases _ _ _ _ He) as [->|(j & f & -> & _)]; [|reflexivity].
    apply resolved_after_withColumn, Href. }
  rewrite Hres. clear Hres.
  destruct (forallb (fun e => resolved (columns df) e.2) es); [|reflexivity].
  f_equal. f_equal. rewrite map_map. apply map_ext. intros r.
  apply map_ext_in. intros e He.
  destruct (withColumn_exprs_cases _ _ _ _ He) as [->|(j & f & -> & Hj & Hf)].
  - apply eval_after_withColumn; assumption.
  - simpl. eapply withColumn_keeps_cell; eauto.
Qed.

(** The value [withColumn] gives the column it sets. *)
Lemma withColumn_sets_field df colName c df' :
  withColumn df colName c = Some df' ->
  rows df' = map (fun r => map (fun e => eval (columns df) r e.2)
                  (replacedAndExisting 0 (columns df) colName c
                     ++ newColumns (columns df) colName c)) (rows df)
  /\ forall r : Row,
       getField (columns df')
         (map (fun e => eval (columns df) r e.2)
            (replacedAndExisting 0 (columns df) colName c
               ++ newColumns (columns df) colName c)) colName
       = eval (columns df) r c.
Proof.
  intros H. pose proof (withColumn_columns _ _ _ _ H) as Hcols.
  unfold withColumn, project in H. destruct (forallb _ _); [|discriminate].
  injection H as <-. simpl. split; [reflexivity|]. intros r.
  simpl in Hcols. rewrite Hcols. unfold getField.
  set (es := replacedAndExisting 0 (columns df) colName c ++ newColumns (columns df) colName c).
  destruct (fieldIndex (withColumn_schema (columns df) colName) colName) as [k|] eqn:Hk.
  - destruct (fieldIndex_lookup _ _ _ Hk) as (f & Hf & Hres).
    rewrite <- (withColumn_exprs_names _ _ c) in Hf. fold es in Hf.
    rewrite list_lookup_fmap in Hf.
    destruct (es !! k) as [e|] eqn:He; [|discriminate]. injection Hf as <-.
    erewrite cell_map by exact He. f_equal. unfold es in He.
    destruct (decide (k < List.length (columns df))%nat) as [Hlt|Hge].
    + rewrite lookup_app_l in He by (rewrite replacedAndExisting_length; exact Hlt).
      rewrite replacedAndExisting_lookup in He.
      destruct (columns df !! k) as [g|] eqn:Hg; [|discriminate]. simpl in He.
      destruct (resolver g colName) eqn:Eg; injection He as <-; simpl in *;
        [reflexivity | congruence].
    + rewrite lookup_app_r in He by (rewrite replacedAndExisting_length; lia).
      unfold newColumns in He. destruct (hasColumn (columns df) colName); [discriminate|].
      destruct (k - _)%nat; [|discriminate]. injection He as <-. reflexivity.
  - pose proof (hasColumn_withColumn_schema (columns df) colName) as Hhas.
    apply hasColumn_fieldIndex in Hhas. rewrite Hk in Hhas. destruct Hhas as [? [=]].
Qed.

End WithColumnRows.

(** ** The feature-engineering cell *)

Section FeatureEngineering.
Context {V : SqlValues}.

Lemma replacedAndExisting_resolved s0 i schema colName c :
  forallb (fun e => resolved s0 e.2) (replacedAndExisting i schema colName c)
  = if hasColumn schema colName then resolved s0 c else true.
Proof.
  revert i. induction schema as [|f fs IH]; intros i; simpl; [reflexivity|].
  rewrite IH. destruct (resolver f colName); simpl; [|reflexivity].
  destruct (hasColumn fs colName); [apply andb_diag | apply andb_true_r].
Qed.

(** [withColumn] raises exactly when its expression reads an unknown column. *)
Lemma withColumn_succeeds df colName c :
  is_Some (withColumn df colName c) <-> resolved (columns df) c = true.
Proof.
  unfold withColumn, project.
  rewrite forallb_app, replacedAndExisting_resolved. unfold newColumns.
  destruct (hasColumn (columns df) colName); simpl; rewrite ?andb_true_r;
    destruct (resolved (columns df) c); split; intros H;
    solve [ reflexivity | eexists; reflexivity | discriminate | destruct H as [? [=]] ].
Qed.

Lemma withColumn_fails df colName c :
  withColumn df colName c = None <-> resolved (columns df) c = false.
Proof.
  pose proof (withColumn_succeeds df colName c) as H.
  destruct (withColumn df colName c), (resolved (columns df) c); split; try congruence.
  - intros _. destruct H as [H _]. specialize (H (ex_intro _ _ eq_refl)). discriminate.
  - intros _. destruct H as [_ H]. destruct (H eq_refl) as [? [=]].
Qed.

(** The first assignment of [CRS_DEP_HOUR] is dead: the cell computes what
    the second [withColumn] alone computes on the loaded frame. *)
Lemma feature_engineering_second_only df :
  feature_engineering df
  = withColumn df "CRS_DEP_HOUR" (cast "double" (col "CRS_DEP_TIME")).
Proof.
  unfold feature_engineering.
  destruct (withColumn df "CRS_DEP_HOUR" _) as [df1|] eqn:E at 1; simpl.
  - eapply withColumn_overwrites; [exact E | reflexivity | reflexivity].
  - symmetry. apply withColumn_fails. apply withColumn_fails in E.
    revert E. unfold resolved. simpl.
    destruct (hasColumn (columns df) "CRS_DEP_TIME"); [discriminate | reflexivity].
Qed.

Lemma feature_engineering_succeeds df :
  is_Some (feature_engineering df) <-> hasColumn (columns df) "CRS_DEP_TIME" = true.
Proof.
  rewrite feature_engineering_second_only, withColumn_succeeds.
  unfold resolved. simpl. rewrite andb_true_r. reflexivity.
Qed.

Lemma renamed_known schema colName :
  Forall (fun n => hasColumn schema n = true) (map (renamed colName) schema).
Proof.
  apply List.Forall_forall. intros n Hn. apply in_map_iff in Hn as (f & <- & Hf).
  unfold hasColumn. apply existsb_exists. exists f. split; [exact Hf|].
  unfold renamed. destruct (resolver f colName) eqn:E; [exact E | apply resolver_refl].
Qed.

(** [withColumn] adds one column when the name is new and none otherwise. *)
Lemma withColumn_new_columns df colName c df' :
  withColumn df colName c = Some df' ->
  new_columns df df' = if hasColumn (columns df) colName then [] else [colName].
Proof.
  intros H. unfold new_columns. rewrite (withColumn_columns _ _ _ _ H).
  unfold withColumn_schema. rewrite List.filter_app.
  assert (Hold : List.filter (fun n => negb (hasColumn (columns df) n))
                   (map (renamed colName) (columns df)) = []).
  { pose proof (renamed_known (columns df) colName) as Hk.
    induction Hk as [|n ns Hn _ IH]; simpl; [reflexivity|]. rewrite Hn. exact IH. }
  rewrite Hold. destruct (hasColumn (columns df) colName) eqn:E; simpl; [reflexivity|].
  rewrite E. reflexivity.
Qed.

Lemma feature_engineering_new_columns df df' :
  feature_engineering df = Some df' ->
  new_columns df df' = if hasColumn (columns df) "CRS_DEP_HOUR" then [] else ["CRS_DEP_HOUR"].
Proof. rewrite feature_engineering_second_only. apply withColumn_new_columns. Qed.

End FeatureEngineering.

(** ** Running the notebook *)

Section Runs.
Context {V : SqlValues} {L : SparkML}.

Lemma bind_Some {A B : Type} (m : M A) (f : A -> M B) w b w' :
  bind m f w = (Some b, w') -> exists a w1, m w = (Some a, w1) /\ f a w1 = (Some b, w').
Proof. unfold bind. destruct (m w) as [[a|] w1]; [eauto | discriminate]. Qed.

Lemma ret_Some {A : Type} (a b : A) w w' : ret a w = (Some b, w') -> b = a /\ w' = w.
Proof. unfold ret. intros [= <- <-]. auto. Qed.

Lemma lift_Some {A : Type} (r : option A) a w w' :
  lift r w = (Some a, w') -> r = Some a /\ w' = w.
Proof. destruct r; unfold lift, ret, raise; intros [= <- <-]; auto. Qed.

Lemma emit_Some e u w w' : emit e w = (Some u, w') -> w' = log e w.
Proof. unfold emit. intros [= _ <-]. reflexivity. Qed.

Lemma call_Some {A : Type} e (r : option A) a w w' :
  call e r w = (Some a, w') -> r = Some a /\ w' = log e w.
Proof.
  unfold call. intros H. apply bind_Some in H as (u & w1 & H1 & H2).
  apply emit_Some in H1 as ->. apply lift_Some in H2. exact H2.
Qed.

Lemma randomSplit_unseeded env df weights parts w w' :
  DataFrame_randomSplit env df weights None w = (Some parts, w') ->
  parts = randomSplit weights (random_randint env (draws w)) df
  /\ w' = log (Ev_randomSplit weights None (random_randint env (draws w)) df) (draw w).
Proof.
  unfold DataFrame_randomSplit. intros H.
  apply bind_Some in H as (s & w1 & H1 & H2).
  unfold randint in H1. injection H1 as <- <-.
  apply call_Some in H2 as [[= <-] ->]. auto.
Qed.

Lemma unpack2_Some {A : Type} (l : list A) a b : unpack2 l = Some (a, b) -> l = [a; b].
Proof. destruct l as [|x [|y [|z l]]]; simpl; intros [= <- <-]; reflexivity. Qed.

End Runs.

Section WP.
Context {V : SqlValues} {L : SparkML}.

Lemma wp_bind {A B : Type} (m : M A) (f : A -> M B) Q w :
  wp m (fun a w1 => wp (f a) Q w1) w -> wp (bind m f) Q w.
Proof.
  intros Hm b w' H. apply bind_Some in H as (a & w1 & H1 & H2). exact (Hm a w1 H1 b w' H2).
Qed.

Lemma wp_ret {A : Type} (a : A) (Q : A -> World -> Prop) w : Q a w -> wp (ret a) Q w.
Proof. intros HQ b w' H. apply ret_Some in H as [-> ->]. exact HQ. Qed.

Lemma wp_emit e (Q : unit -> World -> Prop) w : Q tt (log e w) -> wp (emit e) Q w.
Proof. intros HQ [] w' H. apply emit_Some in H as ->. exact HQ. Qed.

Lemma wp_lift {A : Type} (r : option A) (Q : A -> World -> Prop) w :
  (forall a, r = Some a -> Q a w) -> wp (lift r) Q w.
Proof. intros HQ a w' H. apply lift_Some in H as [Hr ->]. exact (HQ a Hr). Qed.

Lemma wp_call {A : Type} e (r : option A) (Q : A -> World -> Prop) w :
  (forall a, r = Some a -> Q a (log e w)) -> wp (call e r) Q w.
Proof. intros HQ a w' H. apply call_Some in H as [Hr ->]. exact (HQ a Hr). Qed.

Lemma wp_randomSplit env df weights (Q : list DataFrame -> World -> Prop) w :
  (forall s, s = random_randint env (draws w) ->
             Q (randomSplit weights s df) (log (Ev_randomSplit weights None s df) (draw w))) ->
  wp (DataFrame_randomSplit env df weights None) Q w.
Proof. intros HQ a w' H. apply randomSplit_unseeded in H as [-> ->]. exact (HQ _ eq_refl). Qed.

Lemma wp_unpack2 {A : Type} (l : list A) (Q : A * A -> World -> Prop) w :
  (forall a b, l = [a; b] -> Q (a, b) w) -> wp (lift (unpack2 l)) Q w.
Proof.
  intros HQ. apply wp_lift. intros [a b] H. apply unpack2_Some in H. exact (HQ a b H).
Qed.

Lemma wp_run {A : Type} (m : M A) (Q : A -> World -> Prop) w a w' :
  wp m Q w -> m w = (Some a, w') -> Q a w'.
Proof. intros H. apply H. Qed.

End WP.

(** Symbolic execution of the script: one hypothesis per library call. *)
Ltac wp_step :=
  lazymatch goal with
  | |- wp (bind _ _) _ _ => apply wp_bind
  | |- wp (emit _) _ _ => apply wp_emit
  | |- wp (call _ _) _ _ => apply wp_call; intros ? ?
  | |- wp (DataFrame_randomSplit _ _ _ None) _ _ =>
      let s := fresh "seed" in
      let Hs := fresh "Hseed" in
      apply wp_randomSplit; intros s Hs; cbn [draws log draw world0] in Hs
  | |- wp (lift (unpack2 _)) _ _ => apply wp_unpack2; intros ? ? ?
  | |- wp (lift _) _ _ => apply wp_lift; intros ? ?
  | |- wp (ret _) _ _ => apply wp_ret
  end.

Ltac find_in := repeat first [ left; reflexivity | right ].

Ltac wp_script :=
  lazymatch goal with
  | |- notebook ?env ?w0 = (Some ?ns, ?w) -> _ =>
      let H := fresh "Hrun" in
      intros H; pattern ns, w;
      refine (wp_run (notebook env) _ w0 ns w _ H);
      clear H; try clear ns w
  end;
  lazymatch goal with
  | |- wp (notebook ?env) ?Q ?w0 =>
      let m := eval cbv beta zeta delta [notebook mbind M_bind] in (notebook env) in
      change (wp m Q w0)
  end;
  repeat wp_step;
  cbn [trace draws store log draw world0 app].

(** ** What a run writes *)

Section Frame.
Context {V : SqlValues} {L : SparkML}.

Lemma emits_ret P {A : Type} (a : A) : emits P (ret a).
Proof. intros w. simpl. split; [reflexivity|]. exists []. rewrite app_nil_r. auto. Qed.

Lemma emits_lift P {A : Type} (r : option A) : emits P (lift r).
Proof.
  intros w. destruct r; simpl; (split; [reflexivity|]); exists []; rewrite app_nil_r; auto.
Qed.

Lemma emits_emit (P : event -> Prop) e : P e -> emits P (emit e).
Proof. intros He w. simpl. split; [reflexivity|]. exists [e]. auto. Qed.

Lemma emits_bind P {A B : Type} (m : M A) (f : A -> M B) :
  emits P m -> (forall a, emits P (f a)) -> emits P (bind m f).
Proof.
  intros Hm Hf w. unfold bind. destruct (Hm w) as (Hs & evs & Ht & HP).
  destruct (m w) as [[a|] w1]; simpl in *.
  - destruct (Hf a w1) as (Hs' & evs' & Ht' & HP'). split; [congruence|].
    exists (evs ++ evs'). rewrite Ht', Ht, app_assoc. split; [reflexivity|].
    apply List.Forall_app. auto.
  - split; [exact Hs|]. eauto.
Qed.

Lemma emits_call (P : event -> Prop) {A : Type} e (r : option A) : P e -> emits P (call e r).
Proof. intros He. apply emits_bind; [apply emits_emit, He | intros _; apply emits_lift]. Qed.

Lemma emits_randint P env : emits P (randint env).
Proof. intros w. simpl. split; [reflexivity|]. exists []. rewrite app_nil_r. auto. Qed.

Lemma emits_randomSplit (P : event -> Prop) env df weights :
  (forall s, P (Ev_randomSplit weights None s df)) ->
  emits P (DataFrame_randomSplit env df weights None).
Proof.
  intros HP. apply emits_bind; [apply emits_randint | intros s; apply emits_call, HP].
Qed.

(** The line the notebook keeps commented out does write the store. *)
Lemma save_writes_store pm path w :
  store (save pm path w).2 !! path = Some pm
  /\ trace (save pm path w).2 = trace w ++ [Ev_save path].
Proof. simpl. split; [apply lookup_insert_eq | reflexivity]. Qed.

End Frame.

Ltac emits_script :=
  cbv beta zeta delta [notebook mbind M_bind];
  repeat first
    [ apply emits_randomSplit; intros ?
    | apply emits_bind;
      [ | lazymatch goal with
          | |- forall _ : (_ * _)%type, _ => intros [? ?]
          | |- _ => intros ?
          end ]
    | apply emits_emit
    | apply emits_call
    | apply emits_lift
    | apply emits_ret ].

(** ** [Pipeline.fit] keeps the order of the stages *)

Section PipelineFacts.
Context {V : SqlValues} {L : SparkML}.

Lemma indexOfLastEstimator_from_spec stages i acc :
  (acc < i)%Z ->
  (acc <= indexOfLastEstimator_from i stages acc)%Z
  /\ forall j s, stages !! j = Some s ->
                 (indexOfLastEstimator_from i stages acc < i + Z.of_nat j)%Z ->
                 isEstimator s = false.
Proof.
  revert i acc. induction stages as [|stage rest IH]; intros i acc Hacc; simpl.
  - split; [lia | intros j s; rewrite lookup_nil; discriminate].
  - destruct (IH (i + 1)%Z (if isEstimator stage then i else acc)) as [Hle Hafter].
    { destruct (isEstimator stage); lia. }
    split.
    + destruct (isEstimator stage); lia.
    + intros [|j] s Hs Hlt; simpl in Hs.
      * injection Hs as <-. destruct (isEstimator stage); [lia | reflexivity].
      * apply (Hafter j s Hs). lia.
Qed.

Lemma fit_stages_in_order last stages i dataset ts :
  (forall j s, stages !! j = Some s -> (last < i + Z.of_nat j)%Z -> isEstimator s = false) ->
  fit_stages i last stages dataset = Some ts ->
  Forall2 fitted_from stages ts.
Proof.
  revert i dataset ts. induction stages as [|stage rest IH]; intros i dataset ts Hafter; simpl.
  - intros [= <-]. constructor.
  - assert (Hrest : forall j s, rest !! j = Some s -> (last < i + 1 + Z.of_nat j)%Z ->
                                isEstimator s = false).
    { intros j s Hs Hlt. apply (Hafter (S j) s Hs). lia. }
    destruct (i <=? last)%Z eqn:Hi.
    + destruct (isEstimator stage) eqn:Hest.
      * destruct (stage_fit stage dataset) as [model|] eqn:Hfit; simpl; [|discriminate].
        destruct (if (i <? last)%Z then _ else _) as [dataset'|]; simpl; [|discriminate].
        destruct (fit_stages (i + 1) last rest dataset') as [ts'|] eqn:Hts; simpl;
          [|discriminate].
        intros [= <-]. constructor; [simpl; eauto | eapply IH; eauto].
      * destruct (stage_transform stage dataset) as [dataset'|]; simpl; [|discriminate].
        destruct (fit_stages (i + 1) last rest dataset') as [ts'|] eqn:Hts; simpl;
          [|discriminate].
        intros [= <-]. constructor; [simpl; auto | eapply IH; eauto].
    + destruct (fit_stages (i + 1) last rest dataset) as [ts'|] eqn:Hts; simpl;
        [|discriminate].
      intros [= <-]. constructor; [|eapply IH; eauto].
      simpl. split; [reflexivity|]. apply (Hafter 0%nat stage eq_refl).
      apply Z.leb_gt in Hi. lia.
Qed.

(** A fitted pipeline has one transformer per stage, in the order of the
    stages: the fitted model of an estimator, or the stage itself. *)
Lemma Pipeline_fit_in_order stages dataset ts :
  Pipeline_fit stages dataset = Some ts -> Forall2 fitted_from stages ts.
Proof.
  unfold Pipeline_fit. apply fit_stages_in_order.
  intros j s Hs Hlt.
  destruct (indexOfLastEstimator_from_spec stages 0 (-1)) as [_ H]; [lia|].
  eapply H; eauto.
Qed.

Lemma fit_stages_staged last stages i fitted_df df ts df' :
  (forall j s, stages !! j = Some s -> (last < i + Z.of_nat j)%Z -> isEstimator s = false) ->
  ((i <= last)%Z -> fitted_df = df) ->
  fit_stages i last stages fitted_df = Some ts ->
  PipelineModel_transform ts df = Some df' ->
  staged stages ts df df'.
Proof.
  revert i fitted_df df ts. induction stages as [|stage rest IH];
    intros i fitted_df df ts Hafter Hsame; simpl.
  - intros [= <-]. simpl. intros [= <-]. reflexivity.
  - assert (Hrest : forall j s, rest !! j = Some s -> (last < i + 1 + Z.of_nat j)%Z ->
                                isEstimator s = false).
    { intros j s Hs Hlt. apply (Hafter (S j) s Hs). lia. }
    destruct (i <=? last)%Z eqn:Hi.
    + apply Z.leb_le in Hi. rewrite (Hsame Hi). clear Hsame fitted_df.
      destruct (isEstimator stage) eqn:Hest.
      * destruct (stage_fit stage df) as [model|] eqn:Hfit; simpl; [|discriminate].
        destruct (if (i <? last)%Z then _ else _) as [dataset'|] eqn:Hd; simpl; [|discriminate].
        destruct (fit_stages (i + 1) last rest dataset') as [ts'|] eqn:Hts; simpl;
          [|discriminate].
        intros [= <-]. simpl.
        destruct (stage_model_transform model df) as [next|] eqn:Hnext; simpl; [|discriminate].
        intros Htr. split; [split; [exact Hest | exact Hfit]|].
        exists next. split; [reflexivity|].
        apply (IH (i + 1)%Z dataset' next ts' Hrest); [|exact Hts|exact Htr].
        intros Hlt. destruct (i <? last)%Z eqn:Hil; [congruence|].
        apply Z.ltb_ge in Hil. lia.
      * destruct (stage_transform stage df) as [dataset'|] eqn:Hd; simpl; [|discriminate].
        destruct (fit_stages (i + 1) last rest dataset') as [ts'|] eqn:Hts; simpl;
          [|discriminate].
        intros [= <-]. simpl. rewrite Hd. simpl.
        intros Htr. split; [split; [reflexivity | exact Hest]|].
        exists dataset'. split; [reflexivity|].
        apply (IH (i + 1)%Z dataset' dataset' ts' Hrest); [reflexivity|exact Hts|exact Htr].
    + apply Z.leb_gt in Hi.
      destruct (fit_stages (i + 1) last rest fitted_df) as [ts'|] eqn:Hts; simpl;
        [|discriminate].
      intros [= <-]. simpl.
      destruct (stage_transform stage df) as [next|] eqn:Hnext; simpl; [|discriminate].
      intros Htr. split.
      { split; [reflexivity|]. apply (Hafter 0%nat stage eq_refl). lia. }
      exists next. split; [reflexivity|].
      apply (IH (i + 1)%Z fitted_df next ts' Hrest); [lia|exact Hts|exact Htr].
Qed.

(** Fitting a pipeline on a frame and applying the fitted pipeline to the
    same frame runs the stages one after the other, in the order of the
    list. *)
Lemma Pipeline_staged stages df pm transformed :
  Pipeline_fit stages df = Some pm ->
  PipelineModel_transform pm df = Some transformed ->
  staged stages pm df transformed.
Proof.
  unfold Pipeline_fit. apply fit_stages_staged; [|reflexivity].
  intros j s Hs Hlt.
  destruct (indexOfLastEstimator_from_spec stages 0 (-1)) as [_ H]; [lia|].
  eapply H; eauto.
Qed.

End PipelineFacts.

(** ** [ParamGridBuilder] *)

Lemma dict_set_fresh {K W : Type} `{EqDecision K} (d : list (K * W)) k v :
  ~ In k (map fst d) -> dict_set d k v = d ++ [(k, v)].
Proof.
  induction d as [|[k' v'] d IH]; simpl; intros Hk; [reflexivity|].
  destruct (decide (k = k')) as [->|Hne]; [tauto|].
  rewrite IH by tauto. reflexivity.
Qed.

Lemma dict_fold_distinct {K W : Type} `{EqDecision K} (items acc : list (K * W)) :
  NoDup (map fst (acc ++ items)) ->
  fold_left (fun d kv => dict_set d kv.1 kv.2) items acc = acc ++ items.
Proof.
  revert acc. induction items as [|[k v] items IH]; intros acc Hnd; simpl.
  - rewrite app_nil_r. reflexivity.
  - rewrite dict_set_fresh.
    + rewrite IH; rewrite <- app_assoc; [reflexivity | exact Hnd].
    + rewrite map_app in Hnd. simpl in Hnd.
      apply NoDup_app in Hnd as (_ & Hnd & _).
      intros Hin. apply (Hnd k); [apply list_elem_of_In, Hin | left].
Qed.

(** A list of items with distinct keys is the dict it builds. *)
Lemma dict_distinct {K W : Type} `{EqDecision K} (items : list (K * W)) :
  NoDup (map fst items) -> dict items = items.
Proof. intros Hnd. unfold dict. apply (dict_fold_distinct items []). exact Hnd. Qed.

Lemma NoDup_prefix_keys {K W : Type} (keys : list K) (vals : list W) :
  NoDup keys -> NoDup (map fst (combine keys vals)).
Proof.
  revert vals. induction keys as [|k keys IH]; intros vals Hnd; simpl; [constructor|].
  destruct vals as [|v vals]; simpl; [constructor|].
  apply NoDup_cons in Hnd as [Hk Hnd']. apply NoDup_cons. split; [|apply IH, Hnd'].
  intros Hin. apply Hk. apply list_elem_of_In in Hin.
  apply in_map_iff in Hin as ([k' v'] & <- & Hin).
  apply in_combine_l in Hin. apply list_elem_of_In. exact Hin.
Qed.

(** With distinct parameters, [build] is the product of the candidate
    lists, each tuple paired with the parameters. *)
Lemma build_distinct (b : list (Param * list pyvalue)) :
  NoDup (map fst b) ->
  build b = map (combine (map fst b)) (product (map snd b)).
Proof.
  intros Hnd. unfold build. apply map_ext. intros prod.
  apply dict_distinct, NoDup_prefix_keys, Hnd.
Qed.

Lemma addGrid_three (k1 k2 k3 : Param) (v1 v2 v3 : list pyvalue) :
  k1 <> k2 -> k1 <> k3 -> k2 <> k3 ->
  addGrid (addGrid (addGrid ParamGridBuilder k1 v1) k2 v2) k3 v3
  = [(k1, v1); (k2, v2); (k3, v3)].
Proof.
  intros H12 H13 H23. unfold addGrid, ParamGridBuilder. simpl.
  destruct (decide (k2 = k1)); [congruence|]. simpl.
  destruct (decide (k3 = k1)); [congruence|].
  destruct (decide (k3 = k2)); [congruence|]. reflexivity.
Qed.

Section Claims.
Context {V : SqlValues} {L : SparkML}.

(** C3: whenever the feature-engineering cell succeeds, its result is the
    frame the second [withColumn] alone gives on the loaded data - the
    zero-padded value of the first assignment is never read - and in every
    row the final CRS_DEP_HOUR is the row's raw CRS_DEP_TIME cast to double. *)
Theorem C3_crs_dep_hour_is_cast_of_time (df df' : DataFrame) :
  feature_engineering df = Some df' ->
  withColumn df "CRS_DEP_HOUR" (cast "double" (col "CRS_DEP_TIME")) = Some df'
  /\ List.length (rows df') = List.length (rows df)
  /\ forall i r, rows df !! i = Some r ->
       exists r', rows df' !! i = Some r'
                  /\ getField (columns df') r' "CRS_DEP_HOUR"
                     = sql_cast "double" (getField (columns df) r "CRS_DEP_TIME").
Proof.
  rewrite feature_engineering_second_only. intros H. split; [exact H|].
  destruct (withColumn_sets_field _ _ _ _ H) as [Hrows Hfield].
  rewrite Hrows. split; [apply length_map|].
  intros i r Hi. eexists. split.
  - rewrite list_lookup_fmap, Hi. reflexivity.
  - rewrite Hfield. reflexivity.
Qed.

(** C10: a run of the notebook, whether it completes or stops at an
    exception, leaves the object store as it found it and performs no save:
    the one save statement of the source is a comment. *)
Theorem C10_nothing_persisted env w0 :
  store (notebook env w0).2 = store w0
  /\ exists evs, trace (notebook env w0).2 = trace w0 ++ evs
                 /\ List.Forall (fun e => forall path, e <> Ev_save path) evs.
Proof.
  revert w0. change (emits (fun e => forall path, e <> Ev_save path) (notebook env)).
  emits_script; intros path H; discriminate H.
Qed.

(** C4: in a completed run three pipelines are built, each with the three
    string indexers (OP_CARRIER, ORIGIN, DEST) first, the one-hot encoder -
    when there is one - after them, and the assembler of [features] last.
    Each is fitted on the engineered frame and applied to it, and in that
    its stages run one after the other in the order of the list: every stage
    is fitted on, and its transformer applied to, the frame the stages
    before it produced.  The label and the features of what the last stage
    returns is the frame that is then split.  Every fitted pipeline that is
    applied holds its fitted stages in the order of the stages. *)
Theorem C4_stages_in_fixed_order env ns w :
  notebook env world0 = (Some ns, w) ->
  exists p1 p2 p3 m1 m2 m3 s1 s2 s3,
    pipelines_built (trace w) = [p1; p2; p3]
    /\ stages_in_order p1 = true /\ stages_in_order p2 = true /\ stages_in_order p3 = true
    /\ applied_stage_by_stage (trace w) p1 (flight_df ns) m1
    /\ applied_stage_by_stage (trace w) p2 (flight_df ns) m2
    /\ applied_stage_by_stage (trace w) p3 (flight_df ns) m3
    /\ splits (trace w)
       = [([7 # 10; 3 # 10], None, s1, m1); ([7 # 10; 3 # 10], None, s2, m2);
          ([7 # 10; 3 # 10], None, s3, m3)]
    /\ List.Forall applied_in_order (trace w).
Proof.
  wp_script. cbn [flight_df].
  do 9 eexists.
  refine (conj eq_refl (conj eq_refl (conj eq_refl (conj eq_refl
            (conj _ (conj _ (conj _ (conj eq_refl _)))))))).
  1-3: match goal with
       | Hf : Pipeline_fit ?p ?d = Some ?pm,
         Ht : PipelineModel_transform ?pm ?d = Some ?t,
         Hs : select ?t _ = Some ?m |- applied_stage_by_stage _ ?p ?d ?m =>
           exists pm, t;
           split; [find_in|]; split; [exact Hf|]; split; [find_in|]; split; [exact Ht|];
           split; [exact (Pipeline_staged p d pm t Hf Ht) | exact Hs]
       end.
  repeat (apply List.Forall_cons; [simpl; try exact I; try reflexivity|]);
    try apply List.Forall_nil;
    (eexists; split; [|eapply Pipeline_fit_in_order; eassumption]; reflexivity).
Qed.

(** C6: a completed run builds three pipelines.  The second is the first
    without its one-hot encoder, its assembler reading the three _INDEXED
    columns; the third is the first again, its assembler reading the three
    _ENCODED columns.  Logistic regression is fitted under the first, the
    two tree classifiers under the second, and the cross-validated logistic
    regression under the third. *)
Theorem C6_pipeline_rebuilt_twice env ns w :
  notebook env world0 = (Some ns, w) ->
  exists p1 p2 p3,
    pipelines_built (trace w) = [p1; p2; p3]
    /\ existsb is_encoder p1 = true
    /\ p2 = List.filter (fun s => negb (is_encoder s)) (removelast p1)
             ++ [VectorAssembler
                   (["OP_CARRIER_INDEXED"; "ORIGIN_INDEXED"; "DEST_INDEXED"] ++ numeric_cols ns)
                   "features"]
    /\ assembler_inputs p2
       = Some (["OP_CARRIER_INDEXED"; "ORIGIN_INDEXED"; "DEST_INDEXED"] ++ numeric_cols ns)
    /\ p3 = p1
    /\ assembler_inputs p3
       = Some (["OP_CARRIER_ENCODED"; "ORIGIN_ENCODED"; "DEST_ENCODED"] ++ numeric_cols ns)
    /\ pipeline ns = p3
    /\ fits_under [] (trace w)
       = [(lr ns, p1); (rfclassifier ns, p2); (gbt ns, p2); (lr ns, p3)].
Proof.
  wp_script.
  do 3 eexists. split; [reflexivity|]. repeat split; reflexivity.
Qed.


(** C8: in a completed run each of the three classifiers - logistic
    regression, random forest, gradient-boosted trees - is fitted on the
    first part of a split, its model is applied to the second part of that
    same split, and those predictions are scored by the evaluator with label
    column CANCELLED and metric areaUnderROC; the scores are the values the
    three evaluation cells display. *)
Theorem C8_three_classifiers_scored env ns w :
  notebook env world0 = (Some ns, w) ->
  lr ns = LogisticRegression "features" "CANCELLED" 10
  /\ rfclassifier ns = RandomForestClassifier "CANCELLED" "features" 390
  /\ gbt ns = GBTClassifier 10 "features" "CANCELLED" 390
  /\ trained_and_scored (trace w) (lr ns) (auc_lr ns)
  /\ trained_and_scored (trace w) (rfclassifier ns) (auc_rf ns)
  /\ trained_and_scored (trace w) (gbt ns) (auc_gbt ns).
Proof.
  wp_script.
  split; [reflexivity|]. split; [reflexivity|]. split; [reflexivity|].
  unfold trained_and_scored.
  repeat split; do 8 eexists; repeat split; first [ eassumption | find_in ].
Qed.

(** C9: no [randomSplit] is given a seed: in a completed run the three
    splits run with the first, second and third draw of Python's random
    generator.  Logistic regression is scored on the test part of the first
    split; the cross-validated model on the test part of the third, a split
    of its own.  Two runs on the same input arrive at the same frame before
    the last split and part it with their own third draws, so whenever the
    library parts that frame differently under the two draws, the two runs
    end with different train and test sets. *)
Theorem C9_split_unseeded env1 env2 ns1 w1 ns2 w2 :
  (forall q, spark_sql env1 q = spark_sql env2 q) ->
  (forall k, getenv env1 k = getenv env2 k) ->
  notebook env1 world0 = (Some ns1, w1) ->
  notebook env2 world0 = (Some ns2, w2) ->
  (exists df1 df2 train1 test1,
      splits (trace w1)
      = [([7 # 10; 3 # 10], None, random_randint env1 0, df1);
         ([7 # 10; 3 # 10], None, random_randint env1 1, df2);
         ([7 # 10; 3 # 10], None, random_randint env1 2, model_df ns1)]
      /\ randomSplit [7 # 10; 3 # 10] (random_randint env1 0) df1 = [train1; test1]
      /\ transform (lrModel ns1) test1 = Some (predictionslr ns1))
  /\ randomSplit [7 # 10; 3 # 10] (random_randint env1 2) (model_df ns1)
     = [train ns1; test ns1]
  /\ transform (cvModel ns1) (test ns1) = Some (predictions ns1)
  /\ model_df ns2 = model_df ns1
  /\ randomSplit [7 # 10; 3 # 10] (random_randint env2 2) (model_df ns1)
     = [train ns2; test ns2]
  /\ (randomSplit [7 # 10; 3 # 10] (random_randint env1 2) (model_df ns1)
      <> randomSplit [7 # 10; 3 # 10] (random_randint env2 2) (model_df ns1) ->
      (train ns1, test ns1) <> (train ns2, test ns2)).
Proof.
  intros Hsql Hgetenv. wp_script. wp_script.
  repeat match goal with
         | H : spark_sql env1 _ = _ |- _ => rewrite Hsql in H
         end.
  repeat match goal with
         | H1 : ?t = Some ?x, H2 : ?t = Some ?y |- _ =>
             lazymatch x with
             | y => fail
             | _ => assert (x = y) by congruence; subst y; clear H2
             end
         end.
  subst. cbn -[randomSplit].
  split; [do 4 eexists; split; [reflexivity|]; split; eassumption|].
  split; [assumption|]. split; [assumption|]. split; [reflexivity|]. split; [assumption|].
  intros Hne [= <- <-]. apply Hne. congruence.
Qed.

(** C1, as the code has it: whatever the three scores are, the estimator
    a completed run hands to the cross-validator - and fits - is the logistic
    regression [lr] built for Model 1 (features, CANCELLED, maxIter 10).  It
    is the best-scoring of the three exactly when neither the random forest
    nor the gradient-boosted trees scored above logistic regression. *)
Theorem C1_grid_search_on_lr env ns w :
  notebook env world0 = (Some ns, w) ->
  getEstimator (cv ns) = LogisticRegression "features" "CANCELLED" 10
  /\ getEstimator (cv ns) = lr ns
  /\ In (Ev_cv_fit (cv ns) (train ns)) (trace w)
  /\ (grid_search_on_best ns <-> (auc_rf ns <= auc_lr ns)%Q /\ (auc_gbt ns <= auc_lr ns)%Q).
Proof.
  wp_script.
  split; [reflexivity|]. split; [reflexivity|]. split; [find_in|].
  unfold grid_search_on_best, scored. cbn. split.
  - intros (s & [[= <-]|[[=]|[[=]|[]]]] & Hbest). split; eapply Hbest; find_in.
  - intros [Hrf Hgbt]. eexists. split; [left; reflexivity|].
    intros e' q [[= <- <-]|[[= <- <-]|[[= <- <-]|[]]]];
      [apply Qle_refl | assumption | assumption].
Qed.

(** C5: in a completed run the parameter grid is the product of three
    values of maxIter, three of regParam and three of elasticNetParam -
    twenty-seven distinct parameter maps.  The cross-validator holds the
    logistic regression, these maps, the area-under-ROC evaluator, five
    folds and parallelism three; it is fitted on the training part of the
    split, and the cross-validated model of the run is what that fit
    returns.  Scoring every map on every fold is what Spark's
    [CrossValidator.fit], here [cv_fit], does with this configuration. *)
Theorem C5_grid_27_five_folds env ns w :
  notebook env world0 = (Some ns, w) ->
  paramGrid ns
  = flat_map (fun a =>
      flat_map (fun b =>
        map (fun c => [(mkParam (uid (lrModel ns)) "maxIter", a);
                       (mkParam (uid (lrModel ns)) "regParam", b);
                       (mkParam (uid (lrModel ns)) "elasticNetParam", c)])
            [PyFloat (0 # 1); PyFloat (1 # 2); PyFloat (1 # 1)])
        [PyFloat (0 # 1); PyFloat (1 # 100); PyFloat (1 # 10)])
      [PyInt 5; PyInt 10; PyInt 100]
  /\ List.length (paramGrid ns) = 27%nat
  /\ NoDup (paramGrid ns)
  /\ getEstimatorParamMaps (cv ns) = paramGrid ns
  /\ getNumFolds (cv ns) = 5%Z
  /\ In (Ev_cv_fit (cv ns) (train ns)) (trace w)
  /\ cv ns = mkCrossValidator (LogisticRegression "features" "CANCELLED" 10) (paramGrid ns)
               (mkEvaluator "CANCELLED" "areaUnderROC") 5 3
  /\ cv_fit (cv ns) (train ns) = Some (cvModel ns)
  /\ (exists weights seed s, In (Ev_randomSplit weights seed s (model_df ns)) (trace w)
        /\ randomSplit weights s (model_df ns) = [train ns; test ns]).
Proof.
  wp_script.
  cbn [paramGrid cv cvModel getEstimatorParamMaps getNumFolds lrModel train test model_df].
  match goal with
  | |- context [build ?g] => remember (build g) as grid eqn:Hgrid in *
  end.
  rewrite addGrid_three in Hgrid by discriminate.
  rewrite build_distinct in Hgrid
    by (repeat (apply NoDup_cons; split;
                [rewrite list_elem_of_In; simpl; intuition discriminate|]); constructor).
  simpl in Hgrid.
  split; [exact Hgrid|]. split; [rewrite Hgrid; reflexivity|]. split.
  { rewrite Hgrid. eapply (NoDup_fmap_1 (map snd)). simpl.
    apply (bool_decide_unpack _). vm_compute. reflexivity. }
  clear Hgrid.
  split; [reflexivity|]. split; [reflexivity|]. split; [find_in|]. split; [reflexivity|].
  split; [assumption|]. do 3 eexists. split; [find_in | eassumption].
Qed.

End Claims.

(** ** The notebook on the demonstration table *)

Abbreviation demo_run shift :=
  (@notebook Demo.values Demo.ml (Demo.env shift) (@world0 Demo.values Demo.ml)).

Lemma demo_engineered_columns :
  option_map columns (feature_engineering Demo.smaller_flight_table)
  = Some (columns Demo.engineered).
Proof. vm_compute. reflexivity. Qed.

Lemma demo_engineered_rows :
  option_map rows (feature_engineering Demo.smaller_flight_table)
  = Some (rows Demo.engineered).
Proof. vm_compute. reflexivity. Qed.

Lemma demo_engineered :
  feature_engineering Demo.smaller_flight_table = Some Demo.engineered.
Proof.
  pose proof demo_engineered_columns as Hc. pose proof demo_engineered_rows as Hr.
  destruct (feature_engineering Demo.smaller_flight_table) as [[c r]|]; [|discriminate Hc].
  simpl in Hc, Hr. injection Hc as ->. injection Hr as ->. reflexivity.
Qed.

Lemma demo_completes_0 :
  match (demo_run 0).1 with Some _ => true | None => false end = true.
Proof. vm_compute. reflexivity. Qed.

Lemma demo_completes_1 :
  match (demo_run 1).1 with Some _ => true | None => false end = true.
Proof. vm_compute. reflexivity. Qed.

(** The notebook runs to its end on the demonstration table. *)
Lemma demo_run_0 : exists ns w, demo_run 0 = (Some ns, w).
Proof.
  pose proof demo_completes_0 as C.
  destruct (demo_run 0) as [[ns|] w]; [eauto | discriminate C].
Qed.

Lemma demo_run_1 : exists ns w, demo_run 1 = (Some ns, w).
Proof.
  pose proof demo_completes_1 as C.
  destruct (demo_run 1) as [[ns|] w]; [eauto | discriminate C].
Qed.

(** There the gradient-boosted trees score 0.9, logistic regression 0.5. *)
Lemma demo_scores :
  option_map (fun ns => (getEstimator (cv ns), scored ns)) (demo_run 0).1
  = Some (LogisticRegression "features" "CANCELLED" 10,
          [(LogisticRegression "features" "CANCELLED" 10, 1 # 2);
           (RandomForestClassifier "CANCELLED" "features" 390, 3 # 5);
           (GBTClassifier 10 "features" "CANCELLED" 390, 9 # 10)]).
Proof. vm_compute. reflexivity. Qed.

(** The last frame, parted with the third draw of one generator and with
    the third draw of the other: two rows in the first part, or three. *)
Lemma demo_split_third_draw_0 :
  option_map (fun ns => Demo.first_part_has 2
                          (@randomSplit Demo.values Demo.ml [7 # 10; 3 # 10]
                             (random_randint (Demo.env 0) 2) (model_df ns)))
             (demo_run 0).1 = Some true.
Proof. vm_compute. reflexivity. Qed.

Lemma demo_split_third_draw_1 :
  option_map (fun ns => Demo.first_part_has 2
                          (@randomSplit Demo.values Demo.ml [7 # 10; 3 # 10]
                             (random_randint (Demo.env 1) 2) (model_df ns)))
             (demo_run 0).1 = Some false.
Proof. vm_compute. reflexivity. Qed.

(** C2, evaluated on a loaded table that has no CRS_DEP_HOUR column: the
    cell adds one column, not two - both of its assignments go to
    CRS_DEP_HOUR. *)
Theorem C2_one_new_column :
  feature_engineering Demo.smaller_flight_table = Some Demo.engineered
  /\ new_columns Demo.smaller_flight_table Demo.engineered = ["CRS_DEP_HOUR"]
  /\ List.length (new_columns Demo.smaller_flight_table Demo.engineered) = 1%nat.
Proof. split; [exact demo_engineered|]. split; vm_compute; reflexivity. Qed.

(** C1 as the spec words it fails on the demonstration table: the
    gradient-boosted trees score highest and the grid search still runs on
    logistic regression. *)
Lemma C1_counterexample :
  exists ns w, demo_run 0 = (Some ns, w) /\ ~ grid_search_on_best ns.
Proof.
  destruct demo_run_0 as (ns & w & E). exists ns, w. split; [exact E|].
  pose proof demo_scores as S. rewrite E in S. cbn [fst option_map] in S.
  injection S as Hcv Hlr Hauc_lr Hrf Hauc_rf Hgbt Hauc_gbt.
  unfold grid_search_on_best, scored.
  rewrite Hcv, Hlr, Hauc_lr, Hrf, Hauc_rf, Hgbt, Hauc_gbt.
  intros (a & [[= <-]|[[=]|[[=]|[]]]] & Hbest).
  assert (Hle : (9 # 10 <= 1 # 2)%Q) by (eapply Hbest; do 2 right; left; reflexivity).
  revert Hle. unfold Qle. simpl. lia.
Qed.

Lemma C1_witness :
  exists ns w,
    demo_run 0 = (Some ns, w)
    /\ getEstimator (cv ns) = LogisticRegression "features" "CANCELLED" 10
    /\ getEstimator (cv ns) = lr ns
    /\ In (Ev_cv_fit (cv ns) (train ns)) (trace w)
    /\ (grid_search_on_best ns <-> (auc_rf ns <= auc_lr ns)%Q /\ (auc_gbt ns <= auc_lr ns)%Q).
Proof.
  destruct demo_run_0 as (ns & w & E). exists ns, w. split; [exact E|].
  exact (C1_grid_search_on_lr (Demo.env 0) ns w E).
Defined.

Lemma C3_witness :
  feature_engineering Demo.smaller_flight_table = Some Demo.engineered
  /\ withColumn Demo.smaller_flight_table "CRS_DEP_HOUR" (cast "double" (col "CRS_DEP_TIME"))
     = Some Demo.engineered
  /\ List.length (rows Demo.engineered) = List.length (rows Demo.smaller_flight_table)
  /\ forall i r, rows Demo.smaller_flight_table !! i = Some r ->
       exists r', rows Demo.engineered !! i = Some r'
                  /\ getField (columns Demo.engineered) r' "CRS_DEP_HOUR"
                     = sql_cast "double"
                         (getField (columns Demo.smaller_flight_table) r "CRS_DEP_TIME").
Proof.
  split; [exact demo_engineered|].
  exact (C3_crs_dep_hour_is_cast_of_time Demo.smaller_flight_table Demo.engineered
           demo_engineered).
Defined.

Lemma C4_witness :
  exists ns w,
    demo_run 0 = (Some ns, w)
    /\ exists p1 p2 p3 m1 m2 m3 s1 s2 s3,
         pipelines_built (trace w) = [p1; p2; p3]
         /\ stages_in_order p1 = true /\ stages_in_order p2 = true
         /\ stages_in_order p3 = true
         /\ applied_stage_by_stage (trace w) p1 (flight_df ns) m1
         /\ applied_stage_by_stage (trace w) p2 (flight_df ns) m2
         /\ applied_stage_by_stage (trace w) p3 (flight_df ns) m3
         /\ splits (trace w)
            = [([7 # 10; 3 # 10], None, s1, m1); ([7 # 10; 3 # 10], None, s2, m2);
               ([7 # 10; 3 # 10], None, s3, m3)]
         /\ List.Forall applied_in_order (trace w).
Proof.
  destruct demo_run_0 as (ns & w & E). exists ns, w. split; [exact E|].
  exact (C4_stages_in_fixed_order (Demo.env 0) ns w E).
Defined.

Lemma C5_witness :
  exists ns w,
    demo_run 0 = (Some ns, w)
    /\ List.length (paramGrid ns) = 27%nat
    /\ NoDup (paramGrid ns)
    /\ getEstimatorParamMaps (cv ns) = paramGrid ns
    /\ getNumFolds (cv ns) = 5%Z
    /\ In (Ev_cv_fit (cv ns) (train ns)) (trace w)
    /\ cv ns = mkCrossValidator (LogisticRegression "features" "CANCELLED" 10) (paramGrid ns)
                 (mkEvaluator "CANCELLED" "areaUnderROC") 5 3
    /\ @cv_fit Demo.values Demo.ml (cv ns) (train ns) = Some (cvModel ns).
Proof.
  destruct demo_run_0 as (ns & w & E). exists ns, w. split; [exact E|].
  destruct (C5_grid_27_five_folds (Demo.env 0) ns w E) as (_ & H1 & H2 & H3 & H4 & H5 & H6 & H7 & _).
  repeat split; assumption.
Defined.

Lemma C6_witness :
  exists ns w,
    demo_run 0 = (Some ns, w)
    /\ exists p1 p2 p3,
         pipelines_built (trace w) = [p1; p2; p3]
         /\ existsb is_encoder p1 = true
         /\ p2 = List.filter (fun s => negb (is_encoder s)) (removelast p1)
                  ++ [VectorAssembler
                        (["OP_CARRIER_INDEXED"; "ORIGIN_INDEXED"; "DEST_INDEXED"]
                           ++ numeric_cols ns)
                        "features"]
         /\ assembler_inputs p2
            = Some (["OP_CARRIER_INDEXED"; "ORIGIN_INDEXED"; "DEST_INDEXED"] ++ numeric_cols ns)
         /\ p3 = p1
         /\ assembler_inputs p3
            = Some (["OP_CARRIER_ENCODED"; "ORIGIN_ENCODED"; "DEST_ENCODED"] ++ numeric_cols ns)
         /\ pipeline ns = p3
         /\ fits_under [] (trace w)
            = [(lr ns, p1); (rfclassifier ns, p2); (gbt ns, p2); (lr ns, p3)].
Proof.
  destruct demo_run_0 as (ns & w & E). exists ns, w. split; [exact E|].
  exact (C6_pipeline_rebuilt_twice (Demo.env 0) ns w E).
Defined.


Lemma C8_witness :
  exists ns w,
    demo_run 0 = (Some ns, w)
    /\ lr ns = LogisticRegression "features" "CANCELLED" 10
    /\ rfclassifier ns = RandomForestClassifier "CANCELLED" "features" 390
    /\ gbt ns = GBTClassifier 10 "features" "CANCELLED" 390
    /\ trained_and_scored (trace w) (lr ns) (auc_lr ns)
    /\ trained_and_scored (trace w) (rfclassifier ns) (auc_rf ns)
    /\ trained_and_scored (trace w) (gbt ns) (auc_gbt ns).
Proof.
  destruct demo_run_0 as (ns & w & E). exists ns, w. split; [exact E|].
  exact (C8_three_classifiers_scored (Demo.env 0) ns w E).
Defined.

Lemma C9_witness :
  exists ns1 w1 ns2 w2,
    demo_run 0 = (Some ns1, w1)
    /\ demo_run 1 = (Some ns2, w2)
    /\ model_df ns2 = model_df ns1
    /\ (train ns1, test ns1) <> (train ns2, test ns2).
Proof.
  destruct demo_run_0 as (ns1 & w1 & E1). destruct demo_run_1 as (ns2 & w2 & E2).
  exists ns1, w1, ns2, w2. split; [exact E1|]. split; [exact E2|].
  destruct (C9_split_unseeded (Demo.env 0) (Demo.env 1) ns1 w1 ns2 w2
              (fun _ => eq_refl) (fun _ => eq_refl) E1 E2)
    as (_ & _ & _ & Hsame & _ & Hdiffer).
  split; [exact Hsame|]. apply Hdiffer. intros Heq.
  pose proof demo_split_third_draw_0 as S0. pose proof demo_split_third_draw_1 as S1.
  rewrite E1 in S0, S1. cbn [fst option_map] in S0, S1.
  rewrite Heq in S0. rewrite S0 in S1. discriminate S1.
Defined.

(** * More about the cells *)

(** ** The feature-engineering cell, again *)

Section FeatureEngineeringMore.
Context {V : SqlValues}.

Lemma renamed_absent schema colName :
  hasColumn schema colName = false -> map (renamed colName) schema = schema.
Proof.
  induction schema as [|f fs IH]; simpl; [reflexivity|].
  intros H. apply orb_false_iff in H as [Hf Hfs].
  unfold renamed at 1. rewrite Hf, IH by exact Hfs. reflexivity.
Qed.

Lemma select_columns (df : DataFrame) names df' :
  select df names = Some df' -> columns df' = names.
Proof.
  unfold select, project. destruct (forallb _ _); [|discriminate].
  intros [= <-]. simpl. rewrite map_map. simpl. apply map_id.
Qed.

(** X1: on a frame with no column that resolves - letter case aside - to
    CRS_DEP_TIME the feature-engineering cell raises, whatever else the
    frame holds: a CRS_DEP_HOUR column already there does not help.  (The
    converse is not stated: Spark rejects more frames than these.) *)
Theorem X1_feature_engineering_needs_crs_dep_time (df : DataFrame) :
  hasColumn (columns df) "CRS_DEP_TIME" = false -> feature_engineering df = None.
Proof.
  intros Htime. destruct (feature_engineering df) as [df'|] eqn:E; [|reflexivity].
  assert (Hsome : hasColumn (columns df) "CRS_DEP_TIME" = true)
    by (apply feature_engineering_succeeds; rewrite E; eauto).
  congruence.
Qed.

(** X2: the feature-engineering cell touches nothing but CRS_DEP_HOUR: the
    number of rows is kept, and every column whose name does not resolve to
    CRS_DEP_HOUR is still there, with the value it had, in every row. *)
Theorem X2_other_columns_untouched (df df' : DataFrame) (n : string) :
  feature_engineering df = Some df' ->
  resolver "CRS_DEP_HOUR" n = false ->
  List.length (rows df') = List.length (rows df)
  /\ hasColumn (columns df') n = hasColumn (columns df) n
  /\ forall i r, rows df !! i = Some r ->
       exists r', rows df' !! i = Some r'
                  /\ getField (columns df') r' n = getField (columns df) r n.
Proof.
  rewrite feature_engineering_second_only. intros H Hn.
  pose proof (withColumn_columns _ _ _ _ H) as Hcols.
  destruct (withColumn_sets_field _ _ _ _ H) as [Hrows _].
  rewrite Hrows, Hcols. split; [apply length_map|].
  split; [apply hasColumn_withColumn_schema_other, Hn|].
  intros i r Hi. eexists. split.
  - rewrite list_lookup_fmap, Hi. reflexivity.
  - apply withColumn_keeps_field, Hn.
Qed.

(** X3: running the feature-engineering cell again on its own result
    changes nothing: it returns that same frame. *)
Theorem X3_feature_engineering_idempotent (df df' : DataFrame) :
  feature_engineering df = Some df' -> feature_engineering df' = Some df'.
Proof.
  rewrite !feature_engineering_second_only. intros H.
  rewrite (withColumn_overwrites df _ _ _ df' H); [exact H | reflexivity | reflexivity].
Qed.

(** X4: after the feature-engineering cell the frame has a CRS_DEP_HOUR
    column and still its CRS_DEP_TIME column.  When the loaded frame had no
    CRS_DEP_HOUR the new column comes last, after the loaded columns in their
    order; when it had one, the number of columns is unchanged. *)
Theorem X4_crs_dep_hour_appended_or_replaced (df df' : DataFrame) :
  feature_engineering df = Some df' ->
  hasColumn (columns df') "CRS_DEP_HOUR" = true
  /\ hasColumn (columns df') "CRS_DEP_TIME" = true
  /\ (hasColumn (columns df) "CRS_DEP_HOUR" = false ->
      columns df' = columns df ++ ["CRS_DEP_HOUR"])
  /\ (hasColumn (columns df) "CRS_DEP_HOUR" = true ->
      List.length (columns df') = List.length (columns df)).
Proof.
  intros H.
  assert (Htime : hasColumn (columns df) "CRS_DEP_TIME" = true)
    by (apply feature_engineering_succeeds; rewrite H; eauto).
  rewrite feature_engineering_second_only in H.
  rewrite (withColumn_columns _ _ _ _ H).
  split; [apply hasColumn_withColumn_schema|].
  split; [rewrite hasColumn_withColumn_schema_other by reflexivity; exact Htime|].
  unfold withColumn_schema. split; intros Hhas; rewrite Hhas.
  - rewrite renamed_absent by exact Hhas. reflexivity.
  - rewrite app_nil_r. apply length_map.
Qed.

End FeatureEngineeringMore.

Lemma X1_witness :
  hasColumn (columns Demo.table_without_time) "CRS_DEP_TIME" = false
  /\ feature_engineering Demo.table_without_time = None.
Proof.
  assert (Htime : hasColumn (columns Demo.table_without_time) "CRS_DEP_TIME" = false)
    by (vm_compute; reflexivity).
  split; [exact Htime|].
  exact (X1_feature_engineering_needs_crs_dep_time Demo.table_without_time Htime).
Defined.

Lemma X2_witness :
  feature_engineering Demo.smaller_flight_table = Some Demo.engineered
  /\ resolver "CRS_DEP_HOUR" "DISTANCE" = false
  /\ List.length (rows Demo.engineered) = List.length (rows Demo.smaller_flight_table)
  /\ hasColumn (columns Demo.engineered) "DISTANCE"
     = hasColumn (columns Demo.smaller_flight_table) "DISTANCE"
  /\ forall i r, rows Demo.smaller_flight_table !! i = Some r ->
       exists r', rows Demo.engineered !! i = Some r'
                  /\ getField (columns Demo.engineered) r' "DISTANCE"
                     = getField (columns Demo.smaller_flight_table) r "DISTANCE".
Proof.
  split; [exact demo_engineered|]. split; [reflexivity|].
  exact (X2_other_columns_untouched Demo.smaller_flight_table Demo.engineered "DISTANCE"
           demo_engineered eq_refl).
Defined.

Lemma X3_witness :
  feature_engineering Demo.smaller_flight_table = Some Demo.engineered
  /\ feature_engineering Demo.engineered = Some Demo.engineered.
Proof.
  split; [exact demo_engineered|].
  exact (X3_feature_engineering_idempotent _ _ demo_engineered).
Defined.

Lemma X4_witness :
  feature_engineering Demo.smaller_flight_table = Some Demo.engineered
  /\ hasColumn (columns Demo.engineered) "CRS_DEP_HOUR" = true
  /\ columns Demo.engineered = columns Demo.smaller_flight_table ++ ["CRS_DEP_HOUR"].
Proof.
  split; [exact demo_engineered|].
  destruct (X4_crs_dep_hour_appended_or_replaced _ _ demo_engineered) as (H1 & _ & H3 & _).
  split; [exact H1|]. apply H3. vm_compute. reflexivity.
Defined.

(** ** The run, again *)

Section RunMore.
Context {V : SqlValues} {L : SparkML}.

(** X5: in a completed run the frame the model cells work on is the table
    with its null-holding rows dropped, sampled with fraction 1/600 and seed
    111, then feature-engineered.  Each of the three pipelines built is
    fitted on that whole frame, the fitted pipeline that fit returns is
    applied to that same whole frame, and the label and the features of the
    result is the frame that is split: the first, second and third split are
    of the first, second and third pipeline's output.  No pipeline is fitted
    on or applied to any other frame: the six calls all take this one. *)
Theorem X5_pipelines_fitted_on_whole_frame env ns w :
  notebook env world0 = (Some ns, w) ->
  (exists table,
      spark_sql env "select * from smaller_flight_table" = Some table
      /\ feature_engineering (sample (1 # 600) 111 (na_drop table)) = Some (flight_df ns))
  /\ pipeline_frames (trace w) = repeat (flight_df ns) 6
  /\ exists p1 p2 p3 m1 m2 m3 s1 s2 s3,
       pipelines_built (trace w) = [p1; p2; p3]
       /\ fitted_then_applied (trace w) p1 (flight_df ns) m1
       /\ fitted_then_applied (trace w) p2 (flight_df ns) m2
       /\ fitted_then_applied (trace w) p3 (flight_df ns) m3
       /\ splits (trace w)
          = [([7 # 10; 3 # 10], None, s1, m1); ([7 # 10; 3 # 10], None, s2, m2);
             ([7 # 10; 3 # 10], None, s3, m3)].
Proof.
  wp_script. cbn [flight_df].
  split; [eexists; split; eassumption|]. split; [reflexivity|].
  do 9 eexists.
  refine (conj eq_refl (conj _ (conj _ (conj _ eq_refl)))).
  all: match goal with
       | Hf : Pipeline_fit ?p ?d = Some ?pm,
         Ht : PipelineModel_transform ?pm ?d = Some ?t,
         Hs : select ?t _ = Some ?m |- fitted_then_applied _ ?p ?d ?m =>
           exists pm, t;
           split; [find_in|]; split; [exact Hf|]; split; [find_in|]; split; [exact Ht|];
           exact Hs
       end.
Qed.

(** X6: in a completed run every frame that is split has exactly the two
    columns CANCELLED and features, and these are the label column and the
    features column of every estimator fitted - the cross-validated one
    included - and the label column of the evaluator. *)
Theorem X6_split_frames_hold_label_and_features env ns w :
  notebook env world0 = (Some ns, w) ->
  columns (model_df ns) = ["CANCELLED"; "features"]
  /\ List.Forall (fun sp => columns sp.2 = ["CANCELLED"; "features"]) (splits (trace w))
  /\ List.Forall (fun ep => [labelCol_of ep.1; featuresCol_of ep.1] = columns (model_df ns))
       (fits_under [] (trace w))
  /\ List.length (fits_under [] (trace w)) = 4%nat
  /\ getLabelCol (evaluator ns) = "CANCELLED".
Proof.
  wp_script.
  repeat match goal with
         | H : select _ _ = Some _ |- _ => apply select_columns in H
         end.
  cbn [model_df evaluator getLabelCol splits fits_under getEstimator List.length].
  split; [assumption|]. split; [repeat constructor; assumption|].
  split; [|split; reflexivity].
  repeat constructor; cbn [fst labelCol_of featuresCol_of]; symmetry; assumption.
Qed.

(** X7: in a completed run every estimator - each classifier and the
    cross-validator - is fitted on the first part of a split, and every
    model is applied to the second part of a split: no fit ever sees a
    frame that was set aside as a test set, and no score is computed on a
    frame that was a training set. *)
Theorem X7_fit_on_first_apply_to_second env ns w :
  notebook env world0 = (Some ns, w) ->
  List.Forall (fits_first_applies_second (trace w)) (trace w)
  /\ part_of_split 0 (trace w) (train ns)
  /\ part_of_split 1 (trace w) (test ns).
Proof.
  wp_script.
  assert (Hpart : forall k part weights s df (parts : list DataFrame) tr,
             randomSplit weights s df = parts -> parts !! k = Some part ->
             In (Ev_randomSplit weights None s df) tr -> part_of_split k tr part).
  { intros k part weights s df parts tr Hsplit Hk Hin. exists weights, None, s, df.
    rewrite Hsplit. auto. }
  split; [|split];
    repeat (apply List.Forall_cons; [cbn [fits_first_applies_second]; try exact I|]);
    try apply List.Forall_nil;
    match goal with
    | H : randomSplit ?wts ?s ?d = ?parts |- part_of_split ?k _ ?p =>
        apply (Hpart k p wts s d parts _ H); [reflexivity | find_in]
    end.
Qed.

(** X8: in a completed run the cross-validator is tuned with the same
    evaluator - label CANCELLED, metric areaUnderROC - that scores the three
    classifiers, and runs three fits in parallel; it is fitted on the last
    training set, the model it returns is applied to the last test set, and
    the value the cell displays is that evaluator's score of those
    predictions. *)
Theorem X8_cross_validated_model_scored env ns w :
  notebook env world0 = (Some ns, w) ->
  getEvaluator (cv ns) = mkEvaluator "CANCELLED" "areaUnderROC"
  /\ getEvaluator (cv ns) = evaluator ns
  /\ getParallelism (cv ns) = 3%Z
  /\ cv_fit (cv ns) (train ns) = Some (cvModel ns)
  /\ transform (cvModel ns) (test ns) = Some (predictions ns)
  /\ evaluate (evaluator ns) (predictions ns) = Some (auc_cv ns)
  /\ In (Ev_transform (cvModel ns) (test ns)) (trace w)
  /\ In (Ev_evaluate (evaluator ns) (predictions ns)) (trace w).
Proof.
  wp_script.
  cbn [cv cvModel train test predictions evaluator auc_cv getEvaluator getParallelism].
  repeat split; first [ reflexivity | assumption | find_in ].
Qed.

(** X9: in a completed run one curve is plotted, and it is the ROC curve
    of the training summary of [lrModel] - the logistic regression fitted on
    the training part of the first split, before the grid search - not a
    curve of the cross-validated model. *)
Theorem X9_plot_is_of_the_first_model env ns w :
  notebook env world0 = (Some ns, w) ->
  exists roc df train1 test1,
    plots (trace w) = [roc]
    /\ summary_roc (lrModel ns) = Some roc
    /\ fit (lr ns) train1 = Some (lrModel ns)
    /\ randomSplit [7 # 10; 3 # 10] (random_randint env 0) df = [train1; test1].
Proof.
  wp_script. subst. do 4 eexists.
  split; [reflexivity|]. split; [eassumption|]. split; eassumption.
Qed.

(** X10: a completed run writes nine things to standard output, in this
    order: the schema of the sampled frame; the schema of the engineered
    frame; the schema - CANCELLED and features - of the first and of the
    second pipeline's output; the parameter explanation of [lrModel]; the
    schema of the third pipeline's output; then regParam, elasticNetParam
    and maxIter as the best model of the cross-validated model reports them,
    each after its name and an equals sign. *)
Theorem X10_what_is_printed env ns w :
  notebook env world0 = (Some ns, w) ->
  exists table regParam elasticNetParam maxIter,
    spark_sql env "select * from smaller_flight_table" = Some table
    /\ bestModel_get (cvModel ns) "getRegParam" = Some regParam
    /\ bestModel_get (cvModel ns) "getElasticNetParam" = Some elasticNetParam
    /\ bestModel_get (cvModel ns) "getMaxIter" = Some maxIter
    /\ printed (trace w)
       = [SchemaPrinted (columns (sample (1 # 600) 111 (na_drop table)));
          SchemaPrinted (columns (flight_df ns));
          SchemaPrinted ["CANCELLED"; "features"];
          SchemaPrinted ["CANCELLED"; "features"];
          Printed (explainParams (lrModel ns));
          SchemaPrinted ["CANCELLED"; "features"];
          Printed (String.append "regParam = " regParam);
          Printed (String.append "elasticNetParam = " elasticNetParam);
          Printed (String.append "maxIter = " maxIter)].
Proof.
  wp_script. do 4 eexists.
  split; [eassumption|]. split; [eassumption|]. split; [eassumption|].
  split; [eassumption|]. cbn [printed flight_df lrModel].
  repeat match goal with
         | H : select _ _ = Some _ |- _ => apply select_columns in H; rewrite H; clear H
         end.
  reflexivity.
Qed.

(** X11: in a completed run, in each of the three pipelines every stage
    reads only columns that are raw or engineered columns of the frame
    (OP_CARRIER, ORIGIN, DEST and the four numeric columns) or that an
    earlier stage of the same pipeline adds; and the engineered CRS_DEP_HOUR
    is among the columns every assembler reads. *)
Theorem X11_pipelines_are_wired env ns w :
  notebook env world0 = (Some ns, w) ->
  numeric_cols ns = ["CRS_ELAPSED_TIME"; "DISTANCE"; "WEEK"; "CRS_DEP_HOUR"]
  /\ List.Forall
       (fun stages =>
          wired (["OP_CARRIER"; "ORIGIN"; "DEST"] ++ numeric_cols ns) stages = true
          /\ exists inputCols, assembler_inputs stages = Some inputCols
                               /\ In "CRS_DEP_HOUR" inputCols)
       (pipelines_built (trace w)).
Proof.
  wp_script. split; [reflexivity|].
  cbn [pipelines_built numeric_cols].
  repeat (apply List.Forall_cons;
          [split; [reflexivity | eexists; split; [reflexivity | find_in]]|]).
  apply List.Forall_nil.
Qed.

Lemma bind_emit {A : Type} e (f : unit -> M A) w : bind (emit e) f w = f tt (log e w).
Proof. reflexivity. Qed.

Lemma bind_call_Some {A B : Type} e (a : A) (f : A -> M B) w :
  bind (call e (Some a)) f w = f a (log e w).
Proof. reflexivity. Qed.

Lemma bind_call_None {A B : Type} e (f : A -> M B) w :
  bind (call e None) f w = (None, log e w).
Proof. reflexivity. Qed.

Lemma bind_lift_None {A B : Type} (f : A -> M B) w : bind (lift None) f w = (None, w).
Proof. reflexivity. Qed.

(** X12: when the query for the table raises, the run ends there with an
    exception: the session was created and the query issued, nothing was
    persisted, printed, built or fitted, and no random draw was made. *)
Theorem X12_run_without_the_table env :
  spark_sql env "select * from smaller_flight_table" = None ->
  (notebook env world0).1 = None
  /\ trace (notebook env world0).2
     = [Ev_getOrCreate "Airline ML"
          [("spark.executor.memory", Some "8g");
           ("spark.executor.cores", Some "4");
           ("spark.driver.memory", Some "6g");
           ("spark.yarn.access.hadoopFileSystems", getenv env "STORAGE")];
        Ev_sql "select * from smaller_flight_table"]
  /\ draws (notebook env world0).2 = 0%nat.
Proof.
  intros Hsql. cbv beta zeta delta [notebook mbind M_bind].
  rewrite bind_emit, Hsql, bind_call_None. repeat split; reflexivity.
Qed.

(** X13: when the sampled table has no CRS_DEP_TIME column the run ends at
    the feature-engineering cell with an exception: the frame was persisted
    and its schema printed once, but no pipeline was built, nothing was
    split or fitted, and no random draw was made. *)
Theorem X13_run_without_crs_dep_time env table :
  spark_sql env "select * from smaller_flight_table" = Some table ->
  hasColumn (columns (sample (1 # 600) 111 (na_drop table))) "CRS_DEP_TIME" = false ->
  (notebook env world0).1 = None
  /\ trace (notebook env world0).2
     = [Ev_getOrCreate "Airline ML"
          [("spark.executor.memory", Some "8g");
           ("spark.executor.cores", Some "4");
           ("spark.driver.memory", Some "6g");
           ("spark.yarn.access.hadoopFileSystems", getenv env "STORAGE")];
        Ev_sql "select * from smaller_flight_table";
        Ev_persist (sample (1 # 600) 111 (na_drop table));
        Ev_HTML (getenv env "CDSW_ENGINE_ID") (getenv env "CDSW_DOMAIN");
        Ev_printSchema (columns (sample (1 # 600) 111 (na_drop table)))]
  /\ pipelines_built (trace (notebook env world0).2) = []
  /\ splits (trace (notebook env world0).2) = []
  /\ draws (notebook env world0).2 = 0%nat.
Proof.
  intros Hsql Htime.
  assert (Hfe : feature_engineering (sample (1 # 600) 111 (na_drop table)) = None).
  { destruct (feature_engineering _) as [df'|] eqn:E; [|reflexivity].
    assert (Hsome : hasColumn (columns (sample (1 # 600) 111 (na_drop table))) "CRS_DEP_TIME"
                    = true) by (apply feature_engineering_succeeds; rewrite E; eauto).
    congruence. }
  cbv beta zeta delta [notebook mbind M_bind].
  rewrite bind_emit, Hsql, bind_call_Some, !bind_emit, Hfe, bind_lift_None.
  repeat split; reflexivity.
Qed.

End RunMore.

Section EveryRun.
Context {V : SqlValues} {L : SparkML}.

(** X14: in every run - completed or stopped by an exception at any cell -
    whatever was called was called as configured: only the one query, every
    split with weights 0.7 and 0.3 and no seed, every projection onto
    CANCELLED and features, every pipeline in the fixed stage order, every
    classifier and every evaluator on CANCELLED (and features), the
    cross-validator five-fold around the logistic regression; and no save. *)
Theorem X14_every_call_as_configured env w0 :
  exists evs, trace (notebook env w0).2 = trace w0 ++ evs
              /\ List.Forall well_configured evs.
Proof.
  assert (H : emits well_configured (notebook env)).
  { emits_script; cbn [well_configured labelCol_of featuresCol_of getEstimator
                         getEvaluator getNumFolds];
      repeat split; try reflexivity. }
  exact (proj2 (H w0)).
Qed.

End EveryRun.

Lemma X5_witness :
  exists ns w,
    demo_run 0 = (Some ns, w)
    /\ pipeline_frames (trace w) = repeat (flight_df ns) 6
    /\ exists p1 p2 p3 m1 m2 m3 s1 s2 s3,
         pipelines_built (trace w) = [p1; p2; p3]
         /\ fitted_then_applied (trace w) p1 (flight_df ns) m1
         /\ fitted_then_applied (trace w) p2 (flight_df ns) m2
         /\ fitted_then_applied (trace w) p3 (flight_df ns) m3
         /\ splits (trace w)
            = [([7 # 10; 3 # 10], None, s1, m1); ([7 # 10; 3 # 10], None, s2, m2);
               ([7 # 10; 3 # 10], None, s3, m3)].
Proof.
  destruct demo_run_0 as (ns & w & E). exists ns, w. split; [exact E|].
  exact (proj2 (X5_pipelines_fitted_on_whole_frame (Demo.env 0) ns w E)).
Defined.

Lemma X6_witness :
  exists ns w,
    demo_run 0 = (Some ns, w)
    /\ columns (model_df ns) = ["CANCELLED"; "features"]
    /\ List.Forall (fun sp => columns sp.2 = ["CANCELLED"; "features"]) (splits (trace w))
    /\ List.Forall (fun ep => [labelCol_of ep.1; featuresCol_of ep.1] = columns (model_df ns))
         (fits_under [] (trace w))
    /\ List.length (fits_under [] (trace w)) = 4%nat
    /\ getLabelCol (evaluator ns) = "CANCELLED".
Proof.
  destruct demo_run_0 as (ns & w & E). exists ns, w. split; [exact E|].
  exact (X6_split_frames_hold_label_and_features (Demo.env 0) ns w E).
Defined.

Lemma X7_witness :
  exists ns w,
    demo_run 0 = (Some ns, w)
    /\ List.Forall (fits_first_applies_second (trace w)) (trace w)
    /\ part_of_split 0 (trace w) (train ns)
    /\ part_of_split 1 (trace w) (test ns).
Proof.
  destruct demo_run_0 as (ns & w & E). exists ns, w. split; [exact E|].
  exact (X7_fit_on_first_apply_to_second (Demo.env 0) ns w E).
Defined.

Lemma X8_witness :
  exists ns w,
    demo_run 0 = (Some ns, w)
    /\ getEvaluator (cv ns) = mkEvaluator "CANCELLED" "areaUnderROC"
    /\ getEvaluator (cv ns) = evaluator ns
    /\ getParallelism (cv ns) = 3%Z
    /\ In (Ev_transform (cvModel ns) (test ns)) (trace w)
    /\ In (Ev_evaluate (evaluator ns) (predictions ns)) (trace w).
Proof.
  destruct demo_run_0 as (ns & w & E). exists ns, w. split; [exact E|].
  destruct (X8_cross_validated_model_scored (Demo.env 0) ns w E)
    as (H1 & H2 & H3 & _ & _ & _ & H7 & H8).
  repeat split; assumption.
Defined.

Lemma X9_witness :
  exists ns w,
    demo_run 0 = (Some ns, w)
    /\ exists roc, plots (trace w) = [roc]
                   /\ @summary_roc Demo.values Demo.ml (lrModel ns) = Some roc.
Proof.
  destruct demo_run_0 as (ns & w & E). exists ns, w. split; [exact E|].
  destruct (X9_plot_is_of_the_first_model (Demo.env 0) ns w E)
    as (roc & _ & _ & _ & H1 & H2 & _).
  exists roc. split; assumption.
Defined.

Lemma X10_witness :
  exists ns w,
    demo_run 0 = (Some ns, w)
    /\ exists table regParam elasticNetParam maxIter,
         printed (trace w)
         = [SchemaPrinted (columns (@sample Demo.values Demo.ml (1 # 600) 111 (na_drop table)));
            SchemaPrinted (columns (flight_df ns));
            SchemaPrinted ["CANCELLED"; "features"];
            SchemaPrinted ["CANCELLED"; "features"];
            Printed (@explainParams Demo.values Demo.ml (lrModel ns));
            SchemaPrinted ["CANCELLED"; "features"];
            Printed (String.append "regParam = " regParam);
            Printed (String.append "elasticNetParam = " elasticNetParam);
            Printed (String.append "maxIter = " maxIter)].
Proof.
  destruct demo_run_0 as (ns & w & E). exists ns, w. split; [exact E|].
  destruct (X10_what_is_printed (Demo.env 0) ns w E) as (t & a & b & c & _ & _ & _ & _ & H).
  exists t, a, b, c. exact H.
Defined.

Lemma X11_witness :
  exists ns w,
    demo_run 0 = (Some ns, w)
    /\ numeric_cols ns = ["CRS_ELAPSED_TIME"; "DISTANCE"; "WEEK"; "CRS_DEP_HOUR"]
    /\ List.Forall
         (fun stages =>
            wired (["OP_CARRIER"; "ORIGIN"; "DEST"] ++ numeric_cols ns) stages = true
            /\ exists inputCols, assembler_inputs stages = Some inputCols
                                 /\ In "CRS_DEP_HOUR" inputCols)
         (pipelines_built (trace w)).
Proof.
  destruct demo_run_0 as (ns & w & E). exists ns, w. split; [exact E|].
  exact (X11_pipelines_are_wired (Demo.env 0) ns w E).
Defined.

Lemma X12_witness :
  spark_sql Demo.env_without_table "select * from smaller_flight_table" = None
  /\ (@notebook Demo.values Demo.ml Demo.env_without_table world0).1 = None
  /\ draws (@notebook Demo.values Demo.ml Demo.env_without_table world0).2 = 0%nat.
Proof.
  split; [reflexivity|].
  destruct (@X12_run_without_the_table Demo.values Demo.ml Demo.env_without_table eq_refl)
    as (H1 & _ & H3).
  split; assumption.
Defined.

Lemma X13_witness :
  spark_sql Demo.env_without_time "select * from smaller_flight_table"
  = Some Demo.table_without_time
  /\ hasColumn (columns (@sample Demo.values Demo.ml (1 # 600) 111
                           (na_drop Demo.table_without_time))) "CRS_DEP_TIME" = false
  /\ (@notebook Demo.values Demo.ml Demo.env_without_time world0).1 = None
  /\ pipelines_built (trace (@notebook Demo.values Demo.ml Demo.env_without_time world0).2)
     = []
  /\ draws (@notebook Demo.values Demo.ml Demo.env_without_time world0).2 = 0%nat.
Proof.
  assert (Htime : hasColumn (columns (@sample Demo.values Demo.ml (1 # 600) 111
                                        (na_drop Demo.table_without_time))) "CRS_DEP_TIME"
                  = false) by (vm_compute; reflexivity).
  split; [reflexivity|]. split; [exact Htime|].
  destruct (@X13_run_without_crs_dep_time Demo.values Demo.ml Demo.env_without_time
              Demo.table_without_time eq_refl Htime) as (H1 & _ & H3 & _ & H5).
  repeat split; assumption.
Defined.
